(** * spacontrol: a shallow embedding of the spa controller glue code

    The development follows the layout of the Python sources:
    - [models.py]          : the records [SpaStatus] and [SpaConfig];
    - [spa_controller.py]  : [SpaController] (status mapping and the four
                             commands) and [SpaControllerManager];
    - [main.py]            : [ConnectionManager] (the subscriber registry
                             and its broadcast fan-out).

    The protocol client (pybalboa) is an external collaborator.  It is
    modelled by what the sources observe of it: attributes that may be
    missing or whose getter may raise, device handles with a state, an
    options list and a [set_state] coroutine, and the outcome of every
    awaited call. *)

From Stdlib Require Import ZArith String List DecimalString PrimFloat Lia.
From stdpp Require Import gmap list strings.

Open Scope string_scope.
Open Scope Z_scope.

(** ** Python values and exceptions *)

(** The exceptions the sources raise or let escape.  The two
    [Exception(f"Spa ... not found")] and [Exception(f"Spa ... not
    connected")] values are told apart by their message. *)
Inductive exn : Type :=
| NotFound (spa_id : Z)
| NotConnected (spa_id : Z)
| AttributeError (name : string)
| GetterError (name : string)
| IndexError
| ValueError
| ConnectError
| DeviceError.

Inductive result (A : Type) : Type :=
| Ok (a : A)
| Raise (e : exn).
Arguments Ok {A} a.
Arguments Raise {A} e.

Definition rbind {A B} (r : result A) (k : A -> result B) : result B :=
  match r with
  | Ok a => k a
  | Raise e => Raise e
  end.

Declare Scope py_scope.
Delimit Scope py_scope with py.
Notation "x <- r ;; k" := (rbind r (fun x => k))
  (at level 100, r at next level, right associativity) : py_scope.

(** An attribute of a foreign object, as seen by [getattr], [hasattr] and
    plain attribute access. *)
Inductive attr (A : Type) : Type :=
| Absent
| Raising
| Has (a : A).
Arguments Absent {A}.
Arguments Raising {A}.
Arguments Has {A} a.

(** [obj.name] *)
Definition getattr {A} (name : string) (a : attr A) : result A :=
  match a with
  | Absent => Raise (AttributeError name)
  | Raising => Raise (GetterError name)
  | Has v => Ok v
  end.

(** [getattr(obj, name, default)]: only a missing attribute yields the
    default. *)
Definition getattr_default {A} (name : string) (a : attr A) (default : A)
  : result A :=
  match a with
  | Absent => Ok default
  | Raising => Raise (GetterError name)
  | Has v => Ok v
  end.

(** [hasattr(obj, name)] *)
Definition hasattr {A} (name : string) (a : attr A) : result bool :=
  match a with
  | Absent => Ok false
  | Raising => Raise (GetterError name)
  | Has _ => Ok true
  end.

(** [hasattr(obj, name) and obj.name], for a list-valued attribute: the
    list when the conjunction is truthy. *)
Definition probe_list {A} (name : string) (a : attr (list A))
  : result (option (list A)) :=
  (has <- hasattr name a ;;
   if has : bool then
     (l <- getattr name a ;;
      match l with
      | [] => Ok None
      | _ :: _ => Ok (Some l)
      end)
   else Ok None)%py.

(** A Python object of which only truthiness and [str()] are observed
    (option entries of a device, the heat mode). *)
Record PyObj : Type := mkPyObj {
  py_truthy : bool;
  py_str : string
}.

(** [str(n)] and [f"{n}"] for an integer *)
Definition str_int (n : Z) : string := NilZero.string_of_int (Z.to_int n).

(** [str(b)] for a boolean *)
Definition str_bool (b : bool) : string := if b then "True" else "False".

(** [len(l)] *)
Definition len {A} (l : list A) : Z := Z.of_nat (length l).

(** Position denoted by a Python index into a list of length [n]:
    negative indices count from the end; [None] is [IndexError]. *)
Definition py_position (n : nat) (i : Z) : option nat :=
  if i <? 0 then
    if - Z.of_nat n <=? i then Some (Z.to_nat (Z.of_nat n + i)) else None
  else
    if i <? Z.of_nat n then Some (Z.to_nat i) else None.

(** [l[i]], together with the position that was read *)
Definition py_getitem {A} (l : list A) (i : Z) : result (nat * A) :=
  match py_position (length l) i with
  | Some pos =>
      match l !! pos with
      | Some x => Ok (pos, x)
      | None => Raise IndexError
      end
  | None => Raise IndexError
  end.

(** ** The protocol client, as observed *)

Module SpaControl.
(** A pump, light or circulation pump handle. *)
Record t : Type := mk {
  state : Z;
  options : attr (list PyObj);
  (** whether [await set_state(v)] returns normally *)
  set_state_returns : Z -> bool
}.
End SpaControl.

Module SpaClient.
Record t : Type := mk {
  configuration_loaded : attr bool;
  mac_address : attr (option string);
  pumps : attr (list (option SpaControl.t));
  lights : attr (list (option SpaControl.t));
  temperature : attr (option float);
  target_temperature : attr (option float);
  heat_mode : attr (option PyObj);
  circulation_pump : attr (option SpaControl.t);
  filter_cycle_1_running : attr bool;
  filter_cycle_2_running : attr bool;
  (** whether [await set_temperature(v)] returns normally *)
  set_temperature_returns : float -> bool
}.
End SpaClient.

(** ** models.py *)

Module SpaConfig.
Record t : Type := mk {
  spa_id : Z;
  name : string;
  ip_address : string;
  port : Z;
  enabled : bool
}.
End SpaConfig.

Module SpaStatus.
Record t : Type := mk {
  spa_id : Z;
  connected : bool;
  current_temp : option float;
  target_temp : option float;
  heat_mode : option string;
  pumps : gmap Z Z;
  lights : bool;
  light_mode : option string;
  filter_mode : option string;
  circulation_pump : bool;
  mac_address : option string;
  last_update : Z
}.

(** [SpaStatus(spa_id=.., connected=.., last_update=..)]: every other
    field takes the default of the model class. *)
Definition default (spa_id : Z) (connected : bool) (last_update : Z) : t :=
  {| spa_id := spa_id; connected := connected;
     current_temp := None; target_temp := None; heat_mode := None;
     pumps := ∅; lights := false; light_mode := None;
     filter_mode := None; circulation_pump := false;
     mac_address := None; last_update := last_update |}.
End SpaStatus.

(** ** spa_controller.py: SpaController *)

(** What a controller asks of the device during a command. *)
Inductive device : Type :=
| Pump (position : nat)
| Light (position : nat).

Inductive call : Type :=
| CallSetTemperature (temperature : float)
| CallSetState (dev : device) (new_state : Z).

(** A coroutine that talks to the device: the calls it awaited, in order,
    and how it ended. *)
Definition io (A : Type) : Type := (list call * result A)%type.

Definition ret {A} (a : A) : io A := ([], Ok a).

Definition raise {A} (e : exn) : io A := ([], Raise e).

Definition lift {A} (r : result A) : io A := ([], r).

Definition bind {A B} (m : io A) (k : A -> io B) : io B :=
  match m with
  | (tr, Ok a) => let '(tr', r) := k a in ((tr ++ tr')%list, r)
  | (tr, Raise e) => (tr, Raise e)
  end.

Declare Scope io_scope.
Delimit Scope io_scope with io.
Notation "x <- m ;; k" := (bind m (fun x => k))
  (at level 100, m at next level, right associativity) : io_scope.

(** [await c]: the call is made, and either returns or raises. *)
Definition await (c : call) (returns : bool) : io unit :=
  ([c], if returns then Ok tt else Raise DeviceError).

Module SpaController.

Record t : Type := mk {
  config : SpaConfig.t;
  client : option SpaClient.t;
  connected : bool;
  last_status : option SpaStatus.t
}.

(** [SpaController(config)] *)
Definition init (config : SpaConfig.t) : t :=
  {| config := config; client := None; connected := false;
     last_status := None |}.

Definition set_last_status (self : t) (st : SpaStatus.t) : t :=
  {| config := config self; client := client self;
     connected := connected self; last_status := Some st |}.

(** The pump loop of [get_status]: [pumps[i] = pump.state] for every
    entry of the enumeration that is not [None]. *)
Fixpoint parse_pumps (i : Z) (devices : list (option SpaControl.t))
  (pumps : gmap Z Z) : gmap Z Z :=
  match devices with
  | [] => pumps
  | Some pump :: rest =>
      parse_pumps (i + 1) rest (<[i := SpaControl.state pump]> pumps)
  | None :: rest => parse_pumps (i + 1) rest pumps
  end.

(** The light loop of [get_status] breaks at the first truthy entry. *)
Fixpoint first_light (devices : list (option SpaControl.t))
  : option SpaControl.t :=
  match devices with
  | [] => None
  | Some light :: _ => Some light
  | None :: rest => first_light rest
  end.

(** Body of the light loop for that entry: [(lights_on, light_mode)]. *)
Definition light_summary (light : SpaControl.t) : result (bool * string) :=
  (* the log line evaluates
     [light.options if hasattr(light, 'options') else 'None'] *)
  (_ <- hasattr "options" (SpaControl.options light) ;;
   if SpaControl.state light >? 0 then
     (options <- probe_list "options" (SpaControl.options light) ;;
      match options with
      | Some options =>
          if SpaControl.state light <? len options then
            (o <- py_getitem options (SpaControl.state light) ;;
             Ok (true, py_str (snd o)))
          else Ok (true, "MODE_" +:+ str_int (SpaControl.state light))
      | None => Ok (true, "STATE_" +:+ str_int (SpaControl.state light))
      end)
   else Ok (false, "OFF"))%py.

(** The [try] block of [get_status]. *)
Definition get_status_try (now : Z) (self : t) (client : SpaClient.t)
  : result (SpaStatus.t * t) :=
  (loaded <- getattr_default "configuration_loaded"
               (SpaClient.configuration_loaded client) false ;;
   if negb loaded then
     (mac <- getattr_default "mac_address" (SpaClient.mac_address client) None ;;
      Ok ({| SpaStatus.spa_id := SpaConfig.spa_id (config self);
             SpaStatus.connected := true;
             SpaStatus.current_temp := None;
             SpaStatus.target_temp := None;
             SpaStatus.heat_mode := None;
             SpaStatus.pumps := ∅;
             SpaStatus.lights := false;
             SpaStatus.light_mode := None;
             SpaStatus.filter_mode := None;
             SpaStatus.circulation_pump := false;
             SpaStatus.mac_address := mac;
             SpaStatus.last_update := now |}, self))
   else
     (pump_devices <- probe_list "pumps" (SpaClient.pumps client) ;;
      let pumps :=
        match pump_devices with
        | Some devices => parse_pumps 0 devices ∅
        | None => ∅
        end in
      light_devices <- probe_list "lights" (SpaClient.lights client) ;;
      light <-
        match light_devices with
        | Some devices =>
            match first_light devices with
            | Some light => light_summary light
            | None => Ok (false, "OFF")
            end
        | None => Ok (false, "OFF")
        end ;;
      current_temp <- getattr_default "temperature"
                        (SpaClient.temperature client) None ;;
      target_temp <- getattr_default "target_temperature"
                       (SpaClient.target_temperature client) None ;;
      heat_mode <- getattr_default "heat_mode"
                     (SpaClient.heat_mode client) None ;;
      has_circ <- hasattr "circulation_pump"
                    (SpaClient.circulation_pump client) ;;
      circ <- (if has_circ : bool then
                 getattr "circulation_pump" (SpaClient.circulation_pump client)
               else Ok None) ;;
      let circ_pump :=
        match circ with
        | Some pump => SpaControl.state pump >? 0
        | None => false
        end in
      cycle1 <- getattr_default "filter_cycle_1_running"
                  (SpaClient.filter_cycle_1_running client) false ;;
      cycle2 <- getattr_default "filter_cycle_2_running"
                  (SpaClient.filter_cycle_2_running client) false ;;
      mac <- getattr_default "mac_address" (SpaClient.mac_address client) None ;;
      let status :=
        {| SpaStatus.spa_id := SpaConfig.spa_id (config self);
           SpaStatus.connected := true;
           SpaStatus.current_temp := current_temp;
           SpaStatus.target_temp := target_temp;
           SpaStatus.heat_mode :=
             match heat_mode with
             | Some h => if py_truthy h then Some (py_str h) else None
             | None => None
             end;
           SpaStatus.pumps := pumps;
           SpaStatus.lights := fst light;
           SpaStatus.light_mode := Some (snd light);
           SpaStatus.filter_mode :=
             Some ("Cycle1: " +:+ str_bool cycle1 +:+
                   ", Cycle2: " +:+ str_bool cycle2);
           SpaStatus.circulation_pump := circ_pump;
           SpaStatus.mac_address := mac;
           SpaStatus.last_update := now |} in
      Ok (status, set_last_status self status)))%py.

(** [get_status]: the status returned and the controller afterwards.
    [now] is the reading of [datetime.now()]. *)
Definition get_status (now : Z) (self : t) : SpaStatus.t * t :=
  match connected self, client self with
  | true, Some client =>
      match get_status_try now self client with
      | Ok r => r
      | Raise _ =>
          (SpaStatus.default (SpaConfig.spa_id (config self)) false now, self)
      end
  | _, _ => (SpaStatus.default (SpaConfig.spa_id (config self)) false now, self)
  end.

(** Truthiness of a list *)
Definition nonempty {A} (l : list A) : bool :=
  match l with
  | [] => false
  | _ :: _ => true
  end.

(** [set_temperature]: the value is forwarded unmodified. *)
Definition set_temperature (self : t) (temperature : float) : io unit :=
  match connected self, client self with
  | true, Some client =>
      await (CallSetTemperature temperature)
            (SpaClient.set_temperature_returns client temperature)
  | _, _ => raise (NotConnected (SpaConfig.spa_id (config self)))
  end.

(** The [if]/[elif] chain of [cycle_pump]. *)
Definition pump_next_state (current_state : Z) : Z :=
  if current_state =? 0 then 1
  else if current_state =? 1 then 2
  else if current_state =? 2 then 0
  else 0.

(** [cycle_pump]; an exception inside the [try] block is logged and
    raised again, so it reaches the caller unchanged. *)
Definition cycle_pump (self : t) (pump_id : Z) : io unit :=
  match connected self, client self with
  | true, Some client =>
      (pumps <- lift (getattr "pumps" (SpaClient.pumps client)) ;;
       if nonempty pumps && (len pumps >? pump_id) then
         entry <- lift (py_getitem pumps pump_id) ;;
         match snd entry with
         | Some pump =>
             let current_state := SpaControl.state pump in
             (* the log line formats [pump.options] *)
             _ <- lift (getattr "options" (SpaControl.options pump)) ;;
             let next_state := pump_next_state current_state in
             await (CallSetState (Pump (fst entry)) next_state)
                   (SpaControl.set_state_returns pump next_state)
         | None => ret tt
         end
       else ret tt)%io
  | _, _ => raise (NotConnected (SpaConfig.spa_id (config self)))
  end.

(** Next state chosen by [cycle_light], given the truthy options list if
    there is one. *)
Definition light_next_state (current_state : Z)
  (options : option (list PyObj)) : Z :=
  match options with
  | Some options => (current_state + 1) mod len options
  | None => if current_state =? 0 then 1 else 0
  end.

(** [cycle_light]: only [lights[0]] is cycled. *)
Definition cycle_light (self : t) : io unit :=
  match connected self, client self with
  | true, Some client =>
      (lights <- lift (getattr "lights" (SpaClient.lights client)) ;;
       if nonempty lights && (len lights >? 0) then
         entry <- lift (py_getitem lights 0) ;;
         match snd entry with
         | Some light =>
             let current_state := SpaControl.state light in
             _ <- lift (hasattr "options" (SpaControl.options light)) ;;
             options <- lift (probe_list "options" (SpaControl.options light)) ;;
             let next_state := light_next_state current_state options in
             await (CallSetState (Light (fst entry)) next_state)
                   (SpaControl.set_state_returns light next_state)
         | None => ret tt
         end
       else ret tt)%io
  | _, _ => raise (NotConnected (SpaConfig.spa_id (config self)))
  end.

(** [set_light] (legacy): state 1 or 0 on [lights[0]]. *)
Definition set_light (self : t) (state : bool) : io unit :=
  match connected self, client self with
  | true, Some client =>
      (lights <- lift (getattr "lights" (SpaClient.lights client)) ;;
       if nonempty lights && (len lights >? 0) then
         entry <- lift (py_getitem lights 0) ;;
         match snd entry with
         | Some light =>
             let new_state := if state then 1 else 0 in
             await (CallSetState (Light (fst entry)) new_state)
                   (SpaControl.set_state_returns light new_state)
         | None => ret tt
         end
       else ret tt)%io
  | _, _ => raise (NotConnected (SpaConfig.spa_id (config self)))
  end.

(** How an attempt to reach the spa at an address ends. *)
Inductive connect_outcome : Type :=
| Connects (client : SpaClient.t)
| ConnectRaises (client : SpaClient.t)
| ConstructorRaises.

(** [connect]: on any exception the flag is cleared and the exception is
    raised again. *)
Definition connect (network : string -> Z -> connect_outcome) (self : t)
  : result unit * t :=
  match network (SpaConfig.ip_address (config self))
                (SpaConfig.port (config self)) with
  | Connects c =>
      (Ok tt, {| config := config self; client := Some c;
                 connected := true; last_status := last_status self |})
  | ConnectRaises c =>
      (Raise ConnectError,
       {| config := config self; client := Some c;
          connected := false; last_status := last_status self |})
  | ConstructorRaises =>
      (Raise ConnectError,
       {| config := config self; client := client self;
          connected := false; last_status := last_status self |})
  end.

(** [disconnect]: errors of the client are swallowed. *)
Definition disconnect (self : t) : t :=
  match client self with
  | Some _ =>
      {| config := config self; client := None;
         connected := false; last_status := last_status self |}
  | None => self
  end.

End SpaController.

(** ** spa_controller.py: SpaControllerManager *)

Module SpaControllerManager.

Record t : Type := mk {
  controllers : gmap Z SpaController.t;
  configs : list SpaConfig.t
}.

(** [SpaControllerManager()] *)
Definition init : t := {| controllers := ∅; configs := [] |}.

(** One iteration of the loop of [initialize]; the second component
    records the configs for which a connection was attempted. *)
Definition initialize_step (network : string -> Z -> SpaController.connect_outcome)
  (acc : gmap Z SpaController.t * list SpaConfig.t) (config : SpaConfig.t)
  : gmap Z SpaController.t * list SpaConfig.t :=
  if SpaConfig.enabled config then
    let controller := SpaController.init config in
    match SpaController.connect network controller with
    | (Ok _, controller) =>
        (<[SpaConfig.spa_id config := controller]> (fst acc),
         (snd acc ++ [config])%list)
    | (Raise _, _) => (fst acc, (snd acc ++ [config])%list)
    end
  else acc.

(** [initialize]; [loaded] is what [load_spa_configs()] returned. *)
Definition initialize (network : string -> Z -> SpaController.connect_outcome)
  (loaded : list SpaConfig.t) (self : t) : t * list SpaConfig.t :=
  let acc := fold_left (initialize_step network) loaded (controllers self, []) in
  ({| controllers := fst acc; configs := loaded |}, snd acc).

(** [disconnect_all] *)
Definition disconnect_all (self : t) : t :=
  {| controllers := ∅; configs := configs self |}.

(** [get_all_status]; [clock spa_id] is the reading of [datetime.now()]
    during the fetch for that spa. *)
Definition get_all_status (clock : Z -> Z) (self : t)
  : gmap Z SpaStatus.t * t :=
  let fetched :=
    map_imap (fun spa_id controller =>
                Some (SpaController.get_status (clock spa_id) controller))
             (controllers self) in
  (fst <$> fetched,
   {| controllers := snd <$> fetched; configs := configs self |}).

Definition get_spa_status (now : Z) (self : t) (spa_id : Z)
  : result (SpaStatus.t * t) :=
  match controllers self !! spa_id with
  | None => Raise (NotFound spa_id)
  | Some controller =>
      let r := SpaController.get_status now controller in
      Ok (fst r, {| controllers := <[spa_id := snd r]> (controllers self);
                    configs := configs self |})
  end.

Definition set_temperature (self : t) (spa_id : Z) (temperature : float)
  : io unit :=
  match controllers self !! spa_id with
  | None => raise (NotFound spa_id)
  | Some controller => SpaController.set_temperature controller temperature
  end.

Definition cycle_pump (self : t) (spa_id : Z) (pump_id : Z) : io unit :=
  match controllers self !! spa_id with
  | None => raise (NotFound spa_id)
  | Some controller => SpaController.cycle_pump controller pump_id
  end.

Definition cycle_light (self : t) (spa_id : Z) : io unit :=
  match controllers self !! spa_id with
  | None => raise (NotFound spa_id)
  | Some controller => SpaController.cycle_light controller
  end.

Definition set_light (self : t) (spa_id : Z) (state : bool) : io unit :=
  match controllers self !! spa_id with
  | None => raise (NotFound spa_id)
  | Some controller => SpaController.set_light controller state
  end.

End SpaControllerManager.

(** ** main.py: ConnectionManager *)

(** A push channel, by identity. *)
Definition WebSocket : Type := nat.

Module ConnectionManager.

Record t : Type := mk {
  active_connections : list WebSocket
}.

(** [ConnectionManager()] *)
Definition init : t := {| active_connections := [] |}.

(** [l.remove(x)] on a list that holds [x]: the first occurrence goes. *)
Fixpoint remove_first (x : WebSocket) (l : list WebSocket) : list WebSocket :=
  match l with
  | [] => []
  | y :: rest => if decide (x = y) then rest else y :: remove_first x rest
  end.

(** [connect]: the channel is appended once [accept()] has returned. *)
Definition connect (accept_returns : bool) (websocket : WebSocket) (self : t)
  : result t :=
  if accept_returns then
    Ok {| active_connections := (active_connections self ++ [websocket])%list |}
  else Raise DeviceError.

(** [disconnect]: [list.remove] raises [ValueError] on a missing item. *)
Definition disconnect (websocket : WebSocket) (self : t) : result t :=
  if bool_decide (websocket ∈ active_connections self) then
    Ok {| active_connections := remove_first websocket (active_connections self) |}
  else Raise ValueError.

(** First loop of [broadcast]: one [send_text] per subscriber; the
    accumulator holds the deliveries attempted so far and the
    [disconnected] list.  [fan_out] and [broadcast] below are the run in
    which no other task touches the registry while a send is awaited;
    [broadcast_live], further down, is the run with other tasks
    scheduled at the awaits. *)
Definition send_step (send_text_returns : WebSocket -> bool)
  (acc : list WebSocket * list WebSocket) (connection : WebSocket)
  : list WebSocket * list WebSocket :=
  ((fst acc ++ [connection])%list,
   if send_text_returns connection then snd acc
   else (snd acc ++ [connection])%list).

Definition fan_out (send_text_returns : WebSocket -> bool)
  (connections : list WebSocket) : list WebSocket * list WebSocket :=
  fold_left (send_step send_text_returns) connections ([], []).

(** Second loop of [broadcast]. *)
Definition prune_step (active : list WebSocket) (connection : WebSocket)
  : list WebSocket :=
  if bool_decide (connection ∈ active) then remove_first connection active
  else active.

(** [broadcast]: the deliveries attempted, in order, and the manager
    afterwards. *)
Definition broadcast (send_text_returns : WebSocket -> bool) (self : t)
  : list WebSocket * t :=
  let sent := fan_out send_text_returns (active_connections self) in
  (fst sent,
   {| active_connections :=
        fold_left prune_step (snd sent) (active_connections self) |}).

(** Successive broadcast cycles of [monitor_spas], with no subscriber
    joining or leaving in between: the deliveries attempted in each. *)
Fixpoint broadcast_cycles (cycles : list (WebSocket -> bool)) (self : t)
  : list (list WebSocket) :=
  match cycles with
  | [] => []
  | send_text_returns :: later =>
      let r := broadcast send_text_returns self in
      fst r :: broadcast_cycles later (snd r)
  end.

End ConnectionManager.

(** ** main.py: broadcast with other tasks at its awaits *)

(** What another task does to the registry while [broadcast] is
    suspended in [await connection.send_text(message)]: the websocket
    endpoint of a peer that went away calls [manager.disconnect], a new
    peer is appended by [manager.connect]. *)
Inductive registry_event : Type :=
| Leave (websocket : WebSocket)
| Join (websocket : WebSocket).

(** [list.remove] in the other task raises there when the channel is no
    longer registered, and leaves the list as it is. *)
Definition apply_event (active : list WebSocket) (event : registry_event)
  : list WebSocket :=
  match event with
  | Leave websocket => ConnectionManager.remove_first websocket active
  | Join websocket => (active ++ [websocket])%list
  end.

(** The first loop of [broadcast] as Python runs it: the [for] statement
    holds an index into the live list [self.active_connections]; each
    iteration reads the element at the index, awaits the send, during
    which the events of [schedule] for that iteration happen, and moves
    the index on; the loop ends when the index is past the end of the
    list as it then is.  Past the end of [schedule] no other task runs.
    Result: the live list after the loop, the deliveries attempted and
    the [disconnected] list. *)
Fixpoint fan_out_live (send_text_returns : WebSocket -> bool)
  (schedule : list (list registry_event)) (index : nat)
  (active : list WebSocket) (acc : list WebSocket * list WebSocket)
  : list WebSocket * (list WebSocket * list WebSocket) :=
  match schedule with
  | [] =>
      (active,
       fold_left (ConnectionManager.send_step send_text_returns)
                 (drop index active) acc)
  | events :: later =>
      match active !! index with
      | None => (active, acc)
      | Some connection =>
          fan_out_live send_text_returns later (S index)
            (fold_left apply_event events active)
            (ConnectionManager.send_step send_text_returns acc connection)
      end
  end.

(** [broadcast] with other tasks scheduled at its awaits; the second
    loop has no await and runs on the live list in one piece. *)
Definition broadcast_live (send_text_returns : WebSocket -> bool)
  (schedule : list (list registry_event)) (self : ConnectionManager.t)
  : list WebSocket * ConnectionManager.t :=
  let r := fan_out_live send_text_returns schedule 0
             (ConnectionManager.active_connections self) ([], []) in
  (fst (snd r),
   {| ConnectionManager.active_connections :=
        fold_left ConnectionManager.prune_step (snd (snd r)) (fst r) |}).

(** ** The wording of the specification *)

(** The light mode as the specification words it, applied to every state:
    the display name of [options[s]] when the light exposes options and
    [s] is within range, [MODE_<s>] when there are options and [s] is out
    of range, [STATE_<s>] when no options are known. *)
Definition light_mode_as_specified (light : SpaControl.t) : string :=
  let s := SpaControl.state light in
  match SpaControl.options light with
  | Has ((_ :: _) as options) =>
      match (if 0 <=? s then options !! Z.to_nat s else None) with
      | Some o => py_str o
      | None => "MODE_" +:+ str_int s
      end
  | _ => "STATE_" +:+ str_int s
  end.

(** Whether the initial connect of the controller built from a config
    returns normally. *)
Definition connect_succeeds
  (network : string -> Z -> SpaController.connect_outcome)
  (config : SpaConfig.t) : bool :=
  match fst (SpaController.connect network (SpaController.init config)) with
  | Ok _ => true
  | Raise _ => false
  end.

(** ** Sample installations *)

Module Sample.

Definition off_low_high : list PyObj :=
  [mkPyObj false "OFF"; mkPyObj true "LOW"; mkPyObj true "HIGH"].

(** A device that accepts every [set_state]. *)
Definition device (state : Z) (options : attr (list PyObj)) : SpaControl.t :=
  {| SpaControl.state := state; SpaControl.options := options;
     SpaControl.set_state_returns := fun _ => true |}.

Definition client (loaded : attr bool)
  (pumps lights : attr (list (option SpaControl.t))) : SpaClient.t :=
  {| SpaClient.configuration_loaded := loaded;
     SpaClient.mac_address := Has (Some "00:15:27:aa:bb:cc");
     SpaClient.pumps := pumps;
     SpaClient.lights := lights;
     SpaClient.temperature := Has (Some 98.5%float);
     SpaClient.target_temperature := Has (Some 102%float);
     SpaClient.heat_mode := Has (Some (mkPyObj true "READY"));
     SpaClient.circulation_pump := Absent;
     SpaClient.filter_cycle_1_running := Has false;
     SpaClient.filter_cycle_2_running := Absent;
     SpaClient.set_temperature_returns := fun _ => true |}.

Definition config (spa_id : Z) (ip_address : string) : SpaConfig.t :=
  {| SpaConfig.spa_id := spa_id; SpaConfig.name := "Main Spa";
     SpaConfig.ip_address := ip_address; SpaConfig.port := 4257;
     SpaConfig.enabled := true |}.

(** A connected controller of spa 1 around a client. *)
Definition controller (client : SpaClient.t) : SpaController.t :=
  {| SpaController.config := config 1 "172.16.10.140";
     SpaController.client := Some client;
     SpaController.connected := true;
     SpaController.last_status := None |}.

(** Two pumps, the first at Low and the second at High. *)
Definition pumps : list (option SpaControl.t) :=
  [Some (device 1 (Has off_low_high)); Some (device 2 (Has off_low_high))].

(** A ready spa whose only light is off and has the three named modes. *)
Definition ready : SpaClient.t :=
  client (Has true) (Has pumps) (Has [Some (device 0 (Has off_low_high))]).

(** A ready spa whose only light is off and exposes no options. *)
Definition plain_light : SpaControl.t := device 0 Absent.

Definition ready_plain : SpaClient.t :=
  client (Has true) (Has pumps) (Has [Some plain_light]).

(** A ready spa whose only light is in mode 2. *)
Definition light_high : SpaControl.t := device 2 (Has off_low_high).

Definition ready_high : SpaClient.t :=
  client (Has true) (Has pumps) (Has [Some light_high]).

(** A spa whose configuration has not been loaded yet. *)
Definition loading : SpaClient.t := client (Has false) Absent Absent.

(** A spa whose pump list cannot be read. *)
Definition broken : SpaClient.t := client (Has true) Raising (Has []).

(** The network of the two-spa scenario: spa A answers, spa B does not. *)
Definition spa_a : SpaConfig.t := config 1 "172.16.10.140".

Definition spa_b : SpaConfig.t := config 2 "172.16.10.163".

Definition network (ip_address : string) (port : Z)
  : SpaController.connect_outcome :=
  if String.eqb ip_address "172.16.10.140" then SpaController.Connects ready
  else SpaController.ConnectRaises loading.

(** A manager holding one controller that has been disconnected. *)
Definition stale_manager : SpaControllerManager.t :=
  {| SpaControllerManager.controllers :=
       {[ 1 := SpaController.disconnect (controller ready) ]};
     SpaControllerManager.configs := [spa_a] |}.

(** Three subscribers, the second of which has gone away. *)
Definition subscribers : ConnectionManager.t :=
  {| ConnectionManager.active_connections := [1%nat; 2%nat; 3%nat] |}.

Definition second_fails (connection : WebSocket) : bool :=
  negb (Nat.eqb connection 2).

End Sample.

(** ** config.py *)

Module Config.

(** Truthiness of a string *)
Definition str_truthy (s : string) : bool :=
  match s with
  | EmptyString => false
  | String _ _ => true
  end.

(** [os.getenv(name, default)] *)
Definition getenv_default (getenv : string -> option string)
  (name default : string) : string :=
  match getenv name with
  | Some value => value
  | None => default
  end.

(** One [SpaConfig(...)] built from the environment.  [py_int] is the
    builtin [int] on strings, [None] standing for [ValueError]. *)
Definition config_from_env (getenv : string -> option string)
  (py_int : string -> option Z) (spa_id : Z) (ip_address : string)
  (name_var default_name port_var : string) : result SpaConfig.t :=
  let name := getenv_default getenv name_var default_name in
  match py_int (getenv_default getenv port_var "4257") with
  | Some port =>
      Ok {| SpaConfig.spa_id := spa_id; SpaConfig.name := name;
            SpaConfig.ip_address := ip_address; SpaConfig.port := port;
            SpaConfig.enabled := true |}
  | None => Raise ValueError
  end.

(** The configs used when the environment names no spa. *)
Definition default_configs : list SpaConfig.t :=
  [ {| SpaConfig.spa_id := 1; SpaConfig.name := "Main Spa";
       SpaConfig.ip_address := "172.16.10.140"; SpaConfig.port := 4257;
       SpaConfig.enabled := true |};
    {| SpaConfig.spa_id := 2; SpaConfig.name := "Secondary Spa";
       SpaConfig.ip_address := "172.16.10.163"; SpaConfig.port := 4257;
       SpaConfig.enabled := true |} ].

(** The [if spaN_ip: configs.append(...)] statement. *)
Definition append_from_env (getenv : string -> option string)
  (py_int : string -> option Z) (configs : list SpaConfig.t) (spa_id : Z)
  (ip_var name_var default_name port_var : string)
  : result (list SpaConfig.t) :=
  match getenv ip_var with
  | Some ip_address =>
      if str_truthy ip_address then
        (config <- config_from_env getenv py_int spa_id ip_address
                     name_var default_name port_var ;;
         Ok (configs ++ [config])%list)%py
      else Ok configs
  | None => Ok configs
  end.

Definition load_spa_configs (getenv : string -> option string)
  (py_int : string -> option Z) : result (list SpaConfig.t) :=
  (configs <- append_from_env getenv py_int [] 1
                "SPA1_IP" "SPA1_NAME" "Main Spa" "SPA1_PORT" ;;
   configs <- append_from_env getenv py_int configs 2
                "SPA2_IP" "SPA2_NAME" "Secondary Spa" "SPA2_PORT" ;;
   match configs with
   | [] => Ok default_configs
   | _ :: _ => Ok configs
   end)%py.

(** [SpaControllerManager.initialize] with its own call of
    [load_spa_configs]: an exception of the loader leaves the manager as
    it was and reaches the caller. *)
Definition initialize (getenv : string -> option string)
  (py_int : string -> option Z)
  (network : string -> Z -> SpaController.connect_outcome)
  (self : SpaControllerManager.t)
  : result (SpaControllerManager.t * list SpaConfig.t) :=
  (loaded <- load_spa_configs getenv py_int ;;
   Ok (SpaControllerManager.initialize network loaded self))%py.

End Config.

(** A spa is named by the environment when its address variable holds a
    non-empty string. *)
Definition named (getenv : string -> option string) (ip_var : string) : Prop :=
  exists ip_address, getenv ip_var = Some ip_address /\
                Config.str_truthy ip_address = true.

(** ** Life of one controller *)

(** The methods that change a controller. *)
Inductive controller_step : SpaController.t -> SpaController.t -> Prop :=
| step_connect (network : string -> Z -> SpaController.connect_outcome)
    (self : SpaController.t) :
    controller_step self (snd (SpaController.connect network self))
| step_disconnect (self : SpaController.t) :
    controller_step self (SpaController.disconnect self)
| step_get_status (now : Z) (self : SpaController.t) :
    controller_step self (snd (SpaController.get_status now self)).

(** The controllers that a freshly built one can become. *)
Inductive reachable (config : SpaConfig.t) : SpaController.t -> Prop :=
| reachable_init : reachable config (SpaController.init config)
| reachable_step (self self' : SpaController.t) :
    reachable config self -> controller_step self self' ->
    reachable config self'.

(** ** main.py: the monitor loop and two handlers *)

(** The registry after the broadcasts of successive cycles of
    [monitor_spas], with no subscriber joining or leaving in between. *)
Definition after_broadcasts (cycles : list (WebSocket -> bool))
  (self : ConnectionManager.t) : ConnectionManager.t :=
  fold_left (fun manager send_text_returns =>
               snd (ConnectionManager.broadcast send_text_returns manager))
            cycles self.

(** A value of a JSON response body. *)
Inductive json : Type :=
| JString (s : string)
| JInt (n : Z).

(** [POST /api/spa/{spa_id}/pump/{pump_id}] *)
Definition api_cycle_pump (spa_manager : SpaControllerManager.t)
  (spa_id pump_id : Z) : io (list (string * json)) :=
  (_ <- SpaControllerManager.cycle_pump spa_manager spa_id pump_id ;;
   ret [("status", JString "success"); ("spa_id", JInt spa_id);
        ("pump_id", JInt pump_id); ("action", JString "cycled")])%io.

(** [POST /api/spa/{spa_id}/light] *)
Definition api_cycle_light (spa_manager : SpaControllerManager.t)
  (spa_id : Z) : io (list (string * json)) :=
  (_ <- SpaControllerManager.cycle_light spa_manager spa_id ;;
   ret [("status", JString "success"); ("spa_id", JInt spa_id);
        ("action", JString "cycled")])%io.

(** ** A sample environment *)

Module SampleEnv.

(** Only the second spa is named, with a port of its own. *)
Definition getenv (name : string) : option string :=
  if String.eqb name "SPA2_IP" then Some "10.0.0.7"
  else if String.eqb name "SPA2_PORT" then Some "4300"
  else if String.eqb name "SPA1_IP" then Some ""
  else None.

(** The first spa is named, with a port that is no number. *)
Definition getenv_bad_port (name : string) : option string :=
  if String.eqb name "SPA1_IP" then Some "10.0.0.6"
  else if String.eqb name "SPA1_PORT" then Some "spa"
  else None.

(** Plain decimal numerals, which [int] accepts. *)
Definition py_int (s : string) : option Z :=
  match NilZero.int_of_string s with
  | Some n => Some (Z.of_int n)
  | None => None
  end.

(** A manager holding the connected sample spa under id 1. *)
Definition live_manager : SpaControllerManager.t :=
  {| SpaControllerManager.controllers :=
       {[ 1 := Sample.controller Sample.ready ]};
     SpaControllerManager.configs := [Sample.spa_a] |}.

(** A manager whose spa 1 has an empty light list. *)
Definition dark_manager : SpaControllerManager.t :=
  {| SpaControllerManager.controllers :=
       {[ 1 := Sample.controller Sample.broken ]};
     SpaControllerManager.configs := [Sample.spa_a] |}.

(** The config loaded from [getenv]. *)
Definition second_spa : SpaConfig.t :=
  {| SpaConfig.spa_id := 2; SpaConfig.name := "Secondary Spa";
     SpaConfig.ip_address := "10.0.0.7"; SpaConfig.port := 4300;
     SpaConfig.enabled := true |}.

End SampleEnv.

(** * Properties *)

Import SpaController.

(** ** Status retrieval *)

Lemma get_status_not_connected (now : Z) (self : t) :
  client self = None ∨ connected self = false →
  get_status now self =
    (SpaStatus.default (SpaConfig.spa_id (config self)) false now, self).
Proof.
  unfold get_status. intros [Hc | Hc]; rewrite Hc.
  - by destruct (connected self).
  - done.
Qed.

Lemma get_status_connected (now : Z) (self : t) (c : SpaClient.t) :
  connected self = true → client self = Some c →
  get_status now self =
    match get_status_try now self c with
    | Ok r => r
    | Raise _ =>
        (SpaStatus.default (SpaConfig.spa_id (config self)) false now, self)
    end.
Proof. unfold get_status. by intros -> ->. Qed.

(** C1. [get_status] never raises: it is a total function into statuses;
    on an absent client handle or a cleared connected flag it returns the
    status with [connected = false] and every other field at its default,
    and when probing the client raises any exception the same
    disconnected status is returned instead of the exception. *)
Theorem get_status_never_raises (now : Z) (self : t) :
  let disconnected :=
    SpaStatus.default (SpaConfig.spa_id (config self)) false now in
  (client self = None ∨ connected self = false →
   get_status now self = (disconnected, self)) ∧
  (∀ c e, connected self = true → client self = Some c →
          get_status_try now self c = Raise e →
          get_status now self = (disconnected, self)) ∧
  (SpaStatus.connected (fst (get_status now self)) = false ∨
   ∃ c, client self = Some c ∧ connected self = true ∧
        get_status_try now self c = Ok (get_status now self)).
Proof.
  cbn zeta. split; [apply get_status_not_connected |]. split.
  - intros c e Hconn Hcl Hraise.
    by rewrite (get_status_connected _ _ _ Hconn Hcl), Hraise.
  - destruct (client self) as [c|] eqn:Hcl;
      [| left; by rewrite get_status_not_connected; [|left]].
    destruct (connected self) eqn:Hconn;
      [| left; by rewrite get_status_not_connected; [|right]].
    rewrite (get_status_connected _ _ _ Hconn Hcl).
    destruct (get_status_try now self c) as [r|e] eqn:Htry.
    + right. by exists c.
    + by left.
Qed.

(** C8. Connected but not ready: the status has [connected = true], no
    temperatures, and the MAC address of the client when that attribute
    is there, none when it is missing. *)
Theorem get_status_not_ready (now : Z) (self : t) (c : SpaClient.t) :
  client self = Some c → connected self = true →
  SpaClient.configuration_loaded c = Absent ∨
  SpaClient.configuration_loaded c = Has false →
  ∀ mac,
    SpaClient.mac_address c = Has mac ∨
    (SpaClient.mac_address c = Absent ∧ mac = None) →
    let status := fst (get_status now self) in
    SpaStatus.connected status = true ∧
    SpaStatus.current_temp status = None ∧
    SpaStatus.target_temp status = None ∧
    SpaStatus.mac_address status = mac.
Proof.
  intros Hcl Hconn Hready mac Hmac.
  rewrite (get_status_connected _ _ _ Hconn Hcl). unfold get_status_try.
  destruct Hready as [-> | ->]; destruct Hmac as [-> | [-> ->]]; by cbn.
Qed.

(** C9. [get_status] leaves the controller as it was, except that the
    status just built may be stored in [last_status]. *)
Theorem get_status_frame (now : Z) (self : t) :
  let after := snd (get_status now self) in
  config after = config self ∧
  client after = client self ∧
  connected after = connected self ∧
  (last_status after = last_status self ∨
   last_status after = Some (fst (get_status now self))).
Proof.
  cbn zeta. destruct (client self) as [c|] eqn:Hcl;
    [| rewrite get_status_not_connected by (by left); by cbn; auto].
  destruct (connected self) eqn:Hconn;
    [| rewrite get_status_not_connected by (by right); cbn; auto].
  rewrite (get_status_connected _ _ _ Hconn Hcl).
  destruct (get_status_try now self c) as [[st self']|e] eqn:Htry;
    [| cbn; auto].
  unfold get_status_try, rbind in Htry.
  repeat match type of Htry with
         | context [match ?x with _ => _ end] => destruct x; try discriminate
         end;
    inversion Htry; subst; cbn; rewrite ?Hcl, ?Hconn; auto.
Qed.

(** ** Python indexing *)

Lemma len_nonneg {A} (l : list A) : 0 <= len l.
Proof. unfold len. lia. Qed.

Lemma nonempty_len {A} (l : list A) : nonempty l = true ↔ 0 < len l.
Proof. destruct l; unfold len; cbn; split; (done || lia). Qed.

Lemma py_position_bound (n : nat) (i : Z) (pos : nat) :
  py_position n i = Some pos →
  i < Z.of_nat n ∧ (pos < n)%nat ∧
  Z.of_nat pos = (if i <? 0 then Z.of_nat n + i else i).
Proof.
  unfold py_position. destruct (i <? 0) eqn:Hneg.
  - destruct (- Z.of_nat n <=? i) eqn:Hlow; [| done].
    intros [= <-]. lia.
  - destruct (i <? Z.of_nat n) eqn:Hup; [| done].
    intros [= <-]. lia.
Qed.

Lemma py_getitem_Ok {A} (l : list A) (i : Z) (pos : nat) (x : A) :
  py_getitem l i = Ok (pos, x) →
  l !! pos = Some x ∧ i < len l ∧ nonempty l = true ∧
  Z.of_nat pos = (if i <? 0 then len l + i else i).
Proof.
  unfold py_getitem.
  destruct (py_position (length l) i) as [p|] eqn:Hpos; [| done].
  destruct (l !! p) as [y|] eqn:Hy; [| done].
  intros [= <- <-]. apply py_position_bound in Hpos as (? & ? & ?).
  repeat split; try done. apply nonempty_len. unfold len. lia.
Qed.



Lemma py_getitem_first {A} (x : A) (l : list A) :
  py_getitem (x :: l) 0 = Ok (0%nat, x).
Proof. done. Qed.

(** ** Commands on one controller *)






Lemma cycle_light_at (self : t) (c : SpaClient.t) (light : SpaControl.t)
  (rest : list (option SpaControl.t)) (options : option (list PyObj))
  (has : bool) :
  connected self = true → client self = Some c →
  SpaClient.lights c = Has (Some light :: rest) →
  hasattr "options" (SpaControl.options light) = Ok has →
  probe_list "options" (SpaControl.options light) = Ok options →
  let next_state := light_next_state (SpaControl.state light) options in
  cycle_light self =
    ([CallSetState (Light 0) next_state],
     if SpaControl.set_state_returns light next_state then Ok tt
     else Raise DeviceError).
Proof.
  intros Hconn Hcl Hlights Hhas Hprobe. unfold cycle_light.
  rewrite Hconn, Hcl, Hlights. cbn [getattr lift bind nonempty].
  replace (len (Some light :: rest) >? 0) with true
    by (symmetry; apply Z.gtb_gt; unfold len; cbn [length]; lia).
  cbn [andb]. rewrite py_getitem_first. cbn [lift bind snd fst].
  rewrite Hhas. cbn [lift bind]. rewrite Hprobe. by cbn.
Qed.

(** C3. With a non-empty options list of length [N] on the first light,
    [cycle_light] sets that light to [(s + 1) mod N]; with no options
    list (attribute missing, or empty) it sets it to 1 from state 0 and
    to 0 from any other state, so the states 0 and 1 are exchanged and
    the result is always 0 or 1. *)
Theorem cycle_light_sends_next_state (self : t) (c : SpaClient.t)
  (light : SpaControl.t) (rest : list (option SpaControl.t)) :
  connected self = true → client self = Some c →
  SpaClient.lights c = Has (Some light :: rest) →
  let s := SpaControl.state light in
  let sent next_state :=
    cycle_light self =
      ([CallSetState (Light 0) next_state],
       if SpaControl.set_state_returns light next_state then Ok tt
       else Raise DeviceError) in
  (∀ options, SpaControl.options light = Has options → options ≠ [] →
     sent ((s + 1) mod len options)) ∧
  (SpaControl.options light = Absent ∨ SpaControl.options light = Has [] →
   ∃ next_state,
     sent next_state ∧
     (s = 0 → next_state = 1) ∧ (s = 1 → next_state = 0) ∧
     (next_state = 0 ∨ next_state = 1)).
Proof.
  intros Hconn Hcl Hlights s sent. split.
  - intros options Hopts Hne. subst sent. cbn beta.
    rewrite (cycle_light_at self c light rest (Some options) true Hconn Hcl Hlights).
    + done.
    + by rewrite Hopts.
    + rewrite Hopts. by destruct options.
  - intros Hnone.
    exists (light_next_state s None). split; [| unfold light_next_state].
    + subst sent. cbn beta.
      destruct Hnone as [Hopts | Hopts].
      * by rewrite (cycle_light_at self c light rest None false Hconn Hcl Hlights);
          rewrite ?Hopts.
      * by rewrite (cycle_light_at self c light rest None true Hconn Hcl Hlights);
          rewrite ?Hopts.
    + destruct (s =? 0) eqn:H0; lia.
Qed.

(** ** Dispatch through the manager *)

Lemma not_connected_cases (self : t) :
  connected self = false ∨ client self = None →
  ∀ A (k : SpaClient.t → io A) (e : io A),
    match connected self, client self with
    | true, Some c => k c
    | _, _ => e
    end = e.
Proof.
  intros [H | H] A k e; rewrite H; [done |]. by destruct (connected self).
Qed.

(** C6. Each of the four commands dispatched through the manager fails
    with NotFound when the spa id is not in the live mapping, and with
    NotConnected when the id is registered but the controller has its
    connected flag cleared or no client handle; in both cases the device
    is never called. *)
Theorem manager_command_preconditions (manager : SpaControllerManager.t)
  (spa_id : Z) (temperature : float) (pump_id : Z) (state : bool) :
  (SpaControllerManager.controllers manager !! spa_id = None →
   SpaControllerManager.set_temperature manager spa_id temperature
     = ([], Raise (NotFound spa_id)) ∧
   SpaControllerManager.cycle_pump manager spa_id pump_id
     = ([], Raise (NotFound spa_id)) ∧
   SpaControllerManager.cycle_light manager spa_id
     = ([], Raise (NotFound spa_id)) ∧
   SpaControllerManager.set_light manager spa_id state
     = ([], Raise (NotFound spa_id))) ∧
  (∀ controller,
     SpaControllerManager.controllers manager !! spa_id = Some controller →
     connected controller = false ∨ client controller = None →
     let e := NotConnected (SpaConfig.spa_id (config controller)) in
     SpaControllerManager.set_temperature manager spa_id temperature
       = ([], Raise e) ∧
     SpaControllerManager.cycle_pump manager spa_id pump_id
       = ([], Raise e) ∧
     SpaControllerManager.cycle_light manager spa_id = ([], Raise e) ∧
     SpaControllerManager.set_light manager spa_id state = ([], Raise e)).
Proof.
  split.
  - intros Hnone.
    unfold SpaControllerManager.set_temperature,
      SpaControllerManager.cycle_pump, SpaControllerManager.cycle_light,
      SpaControllerManager.set_light.
    by rewrite Hnone.
  - intros controller Hsome Hdown e.
    unfold SpaControllerManager.set_temperature,
      SpaControllerManager.cycle_pump, SpaControllerManager.cycle_light,
      SpaControllerManager.set_light.
    rewrite Hsome.
    unfold set_temperature, cycle_pump, cycle_light, set_light.
    by rewrite !(not_connected_cases controller Hdown).
Qed.

(** ** The light mode of a status *)

Lemma light_summary_spec (light : SpaControl.t) (p : bool * string) :
  light_summary light = Ok p →
  let s := SpaControl.state light in
  fst p = (s >? 0) ∧
  (0 < s → snd p = light_mode_as_specified light) ∧
  (s <= 0 → snd p = "OFF").
Proof.
  intros Hsum. cbn zeta. unfold light_summary in Hsum.
  unfold light_mode_as_specified.
  set (s := SpaControl.state light) in *.
  destruct (s >? 0) eqn:Hpos.
  - apply Z.gtb_gt in Hpos.
    destruct (SpaControl.options light) as [| |[|o options]]; cbn in Hsum;
      try discriminate.
    + injection Hsum as <-. cbn. repeat split; (done || lia).
    + injection Hsum as <-. cbn. repeat split; (done || lia).
    + rewrite (proj2 (Z.leb_le 0 s)) by lia.
      destruct (s <? len (o :: options)) eqn:Hin.
      * apply Z.ltb_lt in Hin.
        destruct (py_getitem (o :: options) s) as [[pos x]|] eqn:Hget;
          [| discriminate].
        injection Hsum as <-. cbn [fst snd].
        apply py_getitem_Ok in Hget as (Hx & _ & _ & Hp).
        rewrite (proj2 (Z.ltb_ge s 0)) in Hp by lia.
        rewrite <- Hp, Nat2Z.id, Hx. repeat split; (done || lia).
      * apply Z.ltb_ge in Hin. injection Hsum as <-. cbn [fst snd].
        rewrite (proj2 (lookup_ge_None (o :: options) (Z.to_nat s)))
          by (unfold len in Hin; lia).
        repeat split; (done || lia).
  - assert (s <= 0) by (destruct (Z.gtb_spec s 0); [done | lia]).
    destruct (SpaControl.options light); cbn in Hsum; try discriminate;
      injection Hsum as <-; repeat split; (done || lia).
Qed.

Lemma first_light_probe (devices : list (option SpaControl.t))
  (light : SpaControl.t) :
  first_light devices = Some light →
  probe_list "lights" (Has devices) = Ok (Some devices).
Proof. by destruct devices. Qed.

(** C4 (amended). On a fully-ready fetch, for the first reported light
    with state [s]: [lights] is [s > 0]; for [s > 0] the light mode is
    the display name of [options[s]] when the (non-empty) options list
    covers [s], [MODE_<s>] when it does not, and [STATE_<s>] when the
    light has no options (attribute missing or empty list); for [s <= 0]
    the light mode is ["OFF"]. *)
Theorem get_status_light_mode (now : Z) (self : t) (c : SpaClient.t)
  (devices : list (option SpaControl.t)) (light : SpaControl.t)
  (r : SpaStatus.t * t) :
  connected self = true → client self = Some c →
  SpaClient.configuration_loaded c = Has true →
  SpaClient.lights c = Has devices → first_light devices = Some light →
  get_status_try now self c = Ok r →
  let s := SpaControl.state light in
  get_status now self = r ∧
  SpaStatus.connected (fst r) = true ∧
  SpaStatus.lights (fst r) = (s >? 0) ∧
  (0 < s →
   SpaStatus.light_mode (fst r) = Some (light_mode_as_specified light)) ∧
  (s <= 0 → SpaStatus.light_mode (fst r) = Some "OFF").
Proof.
  intros Hconn Hcl Hready Hlights Hfirst Htry s.
  split; [by rewrite (get_status_connected _ _ _ Hconn Hcl), Htry |].
  unfold get_status_try in Htry. rewrite Hready, Hlights in Htry.
  cbn [getattr_default rbind negb] in Htry.
  destruct (probe_list "pumps" (SpaClient.pumps c)); [| discriminate].
  cbn [rbind] in Htry.
  rewrite (first_light_probe _ _ Hfirst) in Htry. cbn [rbind] in Htry.
  rewrite Hfirst in Htry.
  destruct (light_summary light) as [p|] eqn:Hsum; [| discriminate].
  cbn [rbind] in Htry.
  repeat match type of Htry with
         | context [rbind ?x _] =>
             destruct x; cbn [rbind] in Htry; try discriminate
         end.
  injection Htry as <-. cbn [fst SpaStatus.connected SpaStatus.lights
                               SpaStatus.light_mode].
  destruct (light_summary_spec _ _ Hsum) as (Hon & Hmode & Hoff).
  split; [done |]. split; [done |].
  split; intros Hs; f_equal; auto.
Qed.

(** ** Manager initialization and aggregate status *)

Lemma initialize_step_cases
  (network : string → Z → connect_outcome)
  (acc : gmap Z t * list SpaConfig.t) (config : SpaConfig.t) :
  (SpaConfig.enabled config = false ∧
   SpaControllerManager.initialize_step network acc config = acc) ∨
  (SpaConfig.enabled config = true ∧
   connect_succeeds network config = false ∧
   SpaControllerManager.initialize_step network acc config
     = (fst acc, (snd acc ++ [config])%list)) ∨
  (SpaConfig.enabled config = true ∧
   connect_succeeds network config = true ∧
   ∃ controller,
     connected controller = true ∧ is_Some (client controller) ∧
     SpaController.config controller = config ∧
     SpaControllerManager.initialize_step network acc config
       = (<[SpaConfig.spa_id config := controller]> (fst acc),
          (snd acc ++ [config])%list)).
Proof.
  unfold SpaControllerManager.initialize_step, connect_succeeds.
  destruct (SpaConfig.enabled config); [right | by left].
  unfold connect, init. cbn [SpaController.config client last_status].
  destruct (network _ _) as [c|c|]; cbn [fst].
  - right. repeat split; try done. eexists. by repeat split.
  - left. by repeat split.
  - left. by repeat split.
Qed.

Lemma initialize_fold (network : string → Z → connect_outcome)
  (loaded : list SpaConfig.t) (controllers : gmap Z t)
  (attempts : list SpaConfig.t) :
  let acc :=
    fold_left (SpaControllerManager.initialize_step network) loaded
              (controllers, attempts) in
  (∀ spa_id,
     is_Some (fst acc !! spa_id) ↔
     is_Some (controllers !! spa_id) ∨
     ∃ config, config ∈ loaded ∧ SpaConfig.spa_id config = spa_id ∧
               SpaConfig.enabled config = true ∧
               connect_succeeds network config = true) ∧
  (∀ spa_id controller,
     fst acc !! spa_id = Some controller →
     controllers !! spa_id = Some controller ∨
     (connected controller = true ∧ is_Some (client controller) ∧
      SpaConfig.spa_id (config controller) = spa_id)) ∧
  snd acc = (attempts ++ List.filter SpaConfig.enabled loaded)%list.
Proof.
  revert controllers attempts.
  induction loaded as [|config loaded IH]; intros controllers attempts.
  - cbn. split; [| split].
    + intros k. split; [by left |]. intros [H | (config & Hin & _)]; [done |].
      by apply not_elem_of_nil in Hin.
    + intros k controller H. by left.
    + by rewrite app_nil_r.
  - cbn [fold_left].
    destruct (initialize_step_cases network (controllers, attempts) config)
      as [(Hoff & ->) | [(Hon & Hfail & ->) | (Hon & Hok & ctrl & Hc & Hcl & Hcfg & ->)]];
      cbn [fst snd]; cbn zeta;
      match goal with
      | |- context [fold_left _ loaded (?m, ?a)] =>
          destruct (IH m a) as (Hdom & Hprov & Hatt); clear IH
      end;
      (split; [| split]).
    + intros k. rewrite Hdom. split; intros [H | (cfg & Hin & Hk & He & Hs)];
        try (by left); right; exists cfg.
      * repeat split; try done. apply elem_of_cons; by right.
      * apply elem_of_cons in Hin as [-> | Hin]; [congruence | done].
    + done.
    + by rewrite Hatt; cbn [List.filter]; rewrite Hoff.
    + intros k. rewrite Hdom. split; intros [H | (cfg & Hin & Hk & He & Hs)];
        try (by left); right; exists cfg.
      * repeat split; try done. apply elem_of_cons; by right.
      * apply elem_of_cons in Hin as [-> | Hin]; [congruence | done].
    + done.
    + rewrite Hatt. cbn [List.filter]. rewrite Hon. by rewrite <- app_assoc.
    + intros k. rewrite Hdom. rewrite lookup_insert_is_Some.
      split.
      * intros [[<- | [_ H]] | (cfg & Hin & Hk & He & Hs)].
        -- right. exists config. repeat split; try done. apply elem_of_cons; by left.
        -- by left.
        -- right. exists cfg. repeat split; try done.
           apply elem_of_cons; by right.
      * intros [H | (cfg & Hin & Hk & He & Hs)].
        -- left. destruct (decide (SpaConfig.spa_id config = k)); [by left |].
           by right.
        -- apply elem_of_cons in Hin as [-> | Hin]; [left; by left |].
           right. by exists cfg.
    + intros k controller Hk. destruct (Hprov _ _ Hk) as [H | H]; [| by right].
      destruct (decide (SpaConfig.spa_id config = k)) as [<- | Hne].
      * rewrite lookup_insert_eq in H. injection H as <-.
        right. by rewrite Hcfg.
      * rewrite lookup_insert_ne in H by done. by left.
    + rewrite Hatt. cbn [List.filter]. rewrite Hon. by rewrite <- app_assoc.
Qed.

Lemma get_all_status_lookup (clock : Z → Z)
  (manager : SpaControllerManager.t) (spa_id : Z) :
  fst (SpaControllerManager.get_all_status clock manager) !! spa_id =
    (λ controller, fst (get_status (clock spa_id) controller)) <$>
      (SpaControllerManager.controllers manager !! spa_id).
Proof.
  unfold SpaControllerManager.get_all_status. cbn [fst].
  rewrite lookup_fmap, map_lookup_imap.
  by destruct (SpaControllerManager.controllers manager !! spa_id).
Qed.

(** C5. After [initialize] on a fresh manager, a spa id is in the
    mapping exactly when some loaded config with that id was enabled and
    its initial connect returned; every registered controller is
    connected with a client handle; connects were attempted for the
    enabled configs only, in order; [get_all_status] has one entry per
    registered controller and no other; and with two enabled spas of
    which only the first connects, it has exactly the entry of the
    first. *)
Theorem initialize_registers_connected_spas
  (network : string → Z → connect_outcome) (loaded : list SpaConfig.t) :
  let r :=
    SpaControllerManager.initialize network loaded SpaControllerManager.init in
  let manager := fst r in
  (∀ spa_id,
     is_Some (SpaControllerManager.controllers manager !! spa_id) ↔
     ∃ config, config ∈ loaded ∧ SpaConfig.spa_id config = spa_id ∧
               SpaConfig.enabled config = true ∧
               connect_succeeds network config = true) ∧
  (∀ spa_id controller,
     SpaControllerManager.controllers manager !! spa_id = Some controller →
     connected controller = true ∧ is_Some (client controller) ∧
     SpaConfig.spa_id (config controller) = spa_id) ∧
  snd r = List.filter SpaConfig.enabled loaded ∧
  (∀ clock spa_id,
     fst (SpaControllerManager.get_all_status clock manager) !! spa_id =
       (λ controller, fst (get_status (clock spa_id) controller)) <$>
         (SpaControllerManager.controllers manager !! spa_id)) ∧
  (∀ a b clock,
     loaded = [a; b] →
     SpaConfig.enabled a = true → SpaConfig.enabled b = true →
     SpaConfig.spa_id a ≠ SpaConfig.spa_id b →
     connect_succeeds network a = true →
     connect_succeeds network b = false →
     dom (fst (SpaControllerManager.get_all_status clock manager))
       = {[ SpaConfig.spa_id a ]}).
Proof.
  cbn zeta. unfold SpaControllerManager.initialize.
  cbn [fst snd SpaControllerManager.controllers SpaControllerManager.init].
  destruct (initialize_fold network loaded ∅ []) as (Hdom & Hprov & Hatt).
  cbn zeta in Hdom, Hprov, Hatt.
  set (acc := fold_left (SpaControllerManager.initialize_step network) _ _) in *.
  assert (∀ spa_id,
     is_Some (fst acc !! spa_id) ↔
     ∃ config, config ∈ loaded ∧ SpaConfig.spa_id config = spa_id ∧
               SpaConfig.enabled config = true ∧
               connect_succeeds network config = true) as Hiff.
  { intros k. rewrite Hdom. split; [| by right].
    intros [H | H]; [| done]. rewrite lookup_empty in H. by destruct H. }
  split; [done |]. split; [| split; [done |]; split].
  - intros k controller Hk. destruct (Hprov _ _ Hk) as [H | H]; [| done].
    by rewrite lookup_empty in H.
  - intros clock k. by rewrite get_all_status_lookup.
  - intros a b clock -> Ha Hb Hne Hca Hcb.
    apply set_eq. intros k.
    rewrite elem_of_dom, get_all_status_lookup, fmap_is_Some.
    cbn [SpaControllerManager.controllers]. rewrite Hiff, elem_of_singleton.
    split.
    + intros (cfg & Hin & <- & _ & Hs).
      apply elem_of_cons in Hin as [-> | Hin]; [done |].
      apply list_elem_of_singleton in Hin as ->. congruence.
    + intros ->. exists a. repeat split; try done. apply elem_of_cons; by left.
Qed.

(** ** Broadcast fan-out *)

Import ConnectionManager.

Lemma fan_out_fold (send_text_returns : WebSocket → bool)
  (connections attempts disconnected : list WebSocket) :
  fold_left (send_step send_text_returns) connections
            (attempts, disconnected) =
    ((attempts ++ connections)%list,
     (disconnected ++
      List.filter (λ c, negb (send_text_returns c)) connections)%list).
Proof.
  revert attempts disconnected.
  induction connections as [|c connections IH]; intros attempts disconnected.
  - cbn. by rewrite !app_nil_r.
  - cbn [fold_left List.filter]. unfold send_step at 2. cbn [fst snd].
    rewrite IH, <- app_assoc. cbn [app].
    destruct (send_text_returns c); cbn [negb]; [done |].
    by rewrite <- app_assoc.
Qed.

Lemma fan_out_spec (send_text_returns : WebSocket → bool)
  (connections : list WebSocket) :
  fan_out send_text_returns connections =
    (connections, List.filter (λ c, negb (send_text_returns c)) connections).
Proof. unfold fan_out. by rewrite fan_out_fold. Qed.

(** Removing subscribers other than [x] leaves a leading [x] in place. *)
Lemma prune_keeps_head (x : WebSocket) (disconnected active : list WebSocket) :
  x ∉ disconnected →
  fold_left prune_step disconnected (x :: active) =
    x :: fold_left prune_step disconnected active.
Proof.
  revert active.
  induction disconnected as [|d disconnected IH]; intros active Hx; [done |].
  apply not_elem_of_cons in Hx as [Hne Hx]. cbn [fold_left].
  rewrite <- (IH _ Hx). f_equal. unfold prune_step.
  cbn [remove_first]. destruct (decide (d = x)) as [-> | Hd]; [done |].
  destruct (decide (d ∈ active)) as [Hin | Hout].
  - rewrite !bool_decide_eq_true_2; [done | done |].
    apply elem_of_cons. by right.
  - rewrite !bool_decide_eq_false_2; [done | done |].
    intros [-> | H]%elem_of_cons; done.
Qed.

Lemma prune_failed (send_text_returns : WebSocket → bool)
  (connections : list WebSocket) :
  fold_left prune_step
    (List.filter (λ c, negb (send_text_returns c)) connections) connections
  = List.filter send_text_returns connections.
Proof.
  induction connections as [|x connections IH]; [done |].
  cbn [List.filter]. destruct (send_text_returns x) eqn:Hx; cbn [negb].
  - rewrite prune_keeps_head; [by rewrite IH |].
    rewrite list_elem_of_In, filter_In. intros [_ H]. by rewrite Hx in H.
  - cbn [fold_left]. unfold prune_step at 2.
    rewrite bool_decide_eq_true_2 by (apply elem_of_cons; by left).
    cbn [remove_first]. by rewrite decide_True.
Qed.

Lemma broadcast_spec (send_text_returns : WebSocket → bool)
  (self : ConnectionManager.t) :
  broadcast send_text_returns self =
    (active_connections self,
     {| active_connections :=
          List.filter send_text_returns (active_connections self) |}).
Proof.
  unfold broadcast. rewrite fan_out_spec. cbn [fst snd].
  by rewrite prune_failed.
Qed.

Lemma broadcast_cycles_within (later : list (WebSocket → bool))
  (self : ConnectionManager.t) (attempts : list WebSocket) (c : WebSocket) :
  attempts ∈ broadcast_cycles later self → c ∈ attempts →
  c ∈ active_connections self.
Proof.
  revert self. induction later as [|send later IH]; intros self Hin Hc.
  - by apply elem_of_nil in Hin.
  - cbn [broadcast_cycles] in Hin. rewrite broadcast_spec in Hin.
    cbn [fst snd] in Hin. apply elem_of_cons in Hin as [-> | Hin]; [done |].
    specialize (IH _ Hin Hc). cbn [active_connections] in IH.
    apply list_elem_of_In, filter_In in IH as [IH _].
    by apply list_elem_of_In.
Qed.

(** The fan-out with no other task at its awaits: a delivery is
    attempted to every subscriber of the registry, in order, collecting
    the failures; the registry is pruned only afterwards, and then holds
    exactly the subscribers whose delivery returned, in their order.  A
    subscriber whose delivery failed is out of the registry and gets no
    delivery in any later such cycle; one whose delivery returned
    stays. *)
Theorem broadcast_prunes_failed_subscribers
  (send_text_returns : WebSocket → bool) (self : ConnectionManager.t) :
  let r := broadcast send_text_returns self in
  fan_out send_text_returns (active_connections self) =
    (active_connections self,
     List.filter (λ c, negb (send_text_returns c)) (active_connections self)) ∧
  fst r = active_connections self ∧
  active_connections (snd r) =
    fold_left prune_step
      (snd (fan_out send_text_returns (active_connections self)))
      (active_connections self) ∧
  active_connections (snd r) =
    List.filter send_text_returns (active_connections self) ∧
  (∀ c, c ∈ active_connections self → send_text_returns c = true →
        c ∈ active_connections (snd r)) ∧
  (∀ c, send_text_returns c = false →
        (c ∉ active_connections (snd r)) ∧
        (∀ later attempts,
           attempts ∈ broadcast_cycles later (snd r) → c ∉ attempts)).
Proof.
  cbn zeta. split; [apply fan_out_spec |].
  rewrite broadcast_spec. cbn [fst snd active_connections].
  split; [done |]. split.
  { rewrite fan_out_spec. cbn [snd]. by rewrite prune_failed. }
  split; [done |]. split.
  - intros c Hin Hc. apply list_elem_of_In, filter_In.
    by rewrite <- list_elem_of_In.
  - intros c Hc.
    assert (c ∉ List.filter send_text_returns (active_connections self)) as Hout.
    { rewrite list_elem_of_In, filter_In. intros [_ H]. congruence. }
    split; [done |]. intros later attempts Hin Hatt.
    apply Hout. by apply (broadcast_cycles_within _ _ _ _ Hin Hatt).
Qed.

(** * The properties on the sample installations *)

(** An unreadable pump list degrades to the disconnected status. *)
Lemma get_status_never_raises_witness :
  get_status_try 7 (Sample.controller Sample.broken) Sample.broken
    = Raise (GetterError "pumps") ∧
  get_status 7 (Sample.controller Sample.broken)
    = (SpaStatus.default 1 false 7, Sample.controller Sample.broken).
Proof.
  split; [reflexivity |].
  exact (proj1 (proj2 (get_status_never_raises 7
                         (Sample.controller Sample.broken)))
           Sample.broken (GetterError "pumps") eq_refl eq_refl eq_refl).
Defined.

(** A spa that is still loading reports its MAC address and no
    temperatures. *)
Lemma get_status_not_ready_witness :
  let status := fst (get_status 7 (Sample.controller Sample.loading)) in
  SpaStatus.connected status = true ∧
  SpaStatus.current_temp status = None ∧
  SpaStatus.target_temp status = None ∧
  SpaStatus.mac_address status = Some "00:15:27:aa:bb:cc".
Proof.
  exact (get_status_not_ready 7 (Sample.controller Sample.loading)
           Sample.loading eq_refl eq_refl (or_intror eq_refl)
           (Some "00:15:27:aa:bb:cc") (or_introl eq_refl)).
Defined.



(** The light with modes OFF, LOW, HIGH goes from 0 to 1; the light
    without options is switched on. *)
Lemma cycle_light_sends_next_state_witness :
  cycle_light (Sample.controller Sample.ready)
    = ([CallSetState (Light 0) 1], Ok tt) ∧
  ∃ next_state,
    cycle_light (Sample.controller Sample.ready_plain)
      = ([CallSetState (Light 0) next_state], Ok tt) ∧
    next_state = 1.
Proof.
  split.
  - exact (proj1 (cycle_light_sends_next_state
                    (Sample.controller Sample.ready) Sample.ready
                    (Sample.device 0 (Has Sample.off_low_high)) []
                    eq_refl eq_refl eq_refl)
             Sample.off_low_high eq_refl ltac:(discriminate)).
  - destruct (proj2 (cycle_light_sends_next_state
                       (Sample.controller Sample.ready_plain)
                       Sample.ready_plain Sample.plain_light []
                       eq_refl eq_refl eq_refl)
                (or_introl eq_refl)) as (next_state & Hsent & Hon & _).
    exists next_state. split; [exact Hsent | exact (Hon eq_refl)].
Defined.

(** A light in mode 2 of OFF, LOW, HIGH is reported on, with label HIGH. *)
Lemma get_status_light_mode_witness :
  let status := fst (get_status 7 (Sample.controller Sample.ready_high)) in
  SpaStatus.lights status = true ∧
  SpaStatus.light_mode status = Some "HIGH".
Proof.
  destruct (get_status_light_mode 7 (Sample.controller Sample.ready_high)
              Sample.ready_high [Some Sample.light_high] Sample.light_high
              (get_status 7 (Sample.controller Sample.ready_high))
              eq_refl eq_refl eq_refl eq_refl eq_refl eq_refl)
    as (_ & _ & Hon & Hmode & _).
  split; [exact Hon | exact (Hmode eq_refl)].
Defined.

(** C4, as worded, at state 0: a light that is off and has no options is
    reported with mode ["OFF"], not ["STATE_0"]. *)
Lemma get_status_light_mode_state_zero :
  let self := Sample.controller Sample.ready_plain in
  let status := fst (get_status 7 self) in
  connected self = true ∧ client self = Some Sample.ready_plain ∧
  SpaClient.configuration_loaded Sample.ready_plain = Has true ∧
  SpaClient.lights Sample.ready_plain = Has [Some Sample.plain_light] ∧
  first_light [Some Sample.plain_light] = Some Sample.plain_light ∧
  SpaControl.state Sample.plain_light = 0 ∧
  light_mode_as_specified Sample.plain_light = "STATE_0" ∧
  SpaStatus.light_mode status = Some "OFF" ∧
  SpaStatus.light_mode status
    ≠ Some (light_mode_as_specified Sample.plain_light).
Proof. repeat split; try reflexivity. discriminate. Qed.

(** Spa A connects and spa B does not: the aggregate status has the
    entry of A only. *)
Lemma initialize_registers_connected_spas_witness :
  dom (fst (SpaControllerManager.get_all_status (λ _, 7)
              (fst (SpaControllerManager.initialize Sample.network
                      [Sample.spa_a; Sample.spa_b]
                      SpaControllerManager.init))))
    = ({[ 1 ]} : gset Z).
Proof.
  exact (proj2 (proj2 (proj2 (proj2
           (initialize_registers_connected_spas Sample.network
              [Sample.spa_a; Sample.spa_b]))))
           Sample.spa_a Sample.spa_b (λ _, 7)
           eq_refl eq_refl eq_refl ltac:(discriminate) eq_refl eq_refl).
Defined.

(** Commands for an unknown spa fail with NotFound, commands for the
    disconnected spa 1 with NotConnected; nothing is sent. *)
Lemma manager_command_preconditions_witness :
  SpaControllerManager.cycle_pump Sample.stale_manager 9 0
    = ([], Raise (NotFound 9)) ∧
  SpaControllerManager.cycle_light Sample.stale_manager 1
    = ([], Raise (NotConnected 1)).
Proof.
  split.
  - exact (proj1 (proj2 (proj1 (manager_command_preconditions
                                  Sample.stale_manager 9 98.5%float 0 true)
                           eq_refl))).
  - exact (proj1 (proj2 (proj2 (proj2 (manager_command_preconditions
                                         Sample.stale_manager 1 98.5%float 0
                                         true)
                                  (SpaController.disconnect
                                     (Sample.controller Sample.ready))
                                  eq_refl (or_introl eq_refl))))).
Defined.

(** Subscriber 2 fails and no other task runs: all three are tried, 2 is
    pruned and is not tried in the next cycle. *)
Lemma broadcast_prunes_failed_subscribers_witness :
  let r := broadcast Sample.second_fails Sample.subscribers in
  fst r = [1%nat; 2%nat; 3%nat] ∧
  active_connections (snd r) = [1%nat; 3%nat] ∧
  (2%nat ∉ [1%nat; 3%nat]).
Proof.
  pose proof (broadcast_prunes_failed_subscribers
                Sample.second_fails Sample.subscribers)
    as (_ & Hall & _ & Hkept & _ & Hgone).
  split; [exact Hall |]. split; [exact Hkept |].
  exact (proj2 (Hgone 2%nat eq_refl) [Sample.second_fails] [1%nat; 3%nat]
           ltac:(apply elem_of_cons; left; reflexivity)).
Defined.

(** ** Further checks on concrete inputs *)

Example str_int_examples :
  str_int 0 = "0" ∧ str_int 12 = "12" ∧ str_int (-7) = "-7".
Proof. by repeat split. Qed.

Example py_getitem_examples :
  py_getitem [10; 20; 30] 1 = Ok (1%nat, 20) ∧
  py_getitem [10; 20; 30] (-1) = Ok (2%nat, 30) ∧
  py_getitem [10; 20; 30] (-3) = Ok (0%nat, 10) ∧
  py_getitem [10; 20; 30] 3 = Raise IndexError ∧
  py_getitem [10; 20; 30] (-4) = Raise IndexError.
Proof. by repeat split. Qed.

(** Low, High, Off, Low; an unknown state goes to Off. *)
Example pump_next_state_examples :
  pump_next_state 0 = 1 ∧ pump_next_state 1 = 2 ∧ pump_next_state 2 = 0 ∧
  pump_next_state 3 = 0 ∧ pump_next_state (-1) = 0.
Proof. by repeat split. Qed.

(** Light modes for states beyond the options, without options, and for
    a light that is off. *)
Example light_summary_examples :
  light_summary (Sample.device 1 (Has Sample.off_low_high))
    = Ok (true, "LOW") ∧
  light_summary (Sample.device 5 (Has Sample.off_low_high))
    = Ok (true, "MODE_5") ∧
  light_summary (Sample.device 1 Absent) = Ok (true, "STATE_1") ∧
  light_summary (Sample.device 1 (Has [])) = Ok (true, "STATE_1") ∧
  light_summary (Sample.device 0 (Has Sample.off_low_high))
    = Ok (false, "OFF") ∧
  light_summary (Sample.device 1 Raising) = Raise (GetterError "options").
Proof. by repeat split. Qed.

(** The full status of the ready sample spa. *)
Example get_status_ready_example :
  let status := fst (get_status 7 (Sample.controller Sample.ready)) in
  SpaStatus.connected status = true ∧
  SpaStatus.pumps status !! 0 = Some 1 ∧
  SpaStatus.pumps status !! 1 = Some 2 ∧
  SpaStatus.pumps status !! 2 = None ∧
  SpaStatus.lights status = false ∧
  SpaStatus.light_mode status = Some "OFF" ∧
  SpaStatus.heat_mode status = Some "READY" ∧
  SpaStatus.filter_mode status = Some "Cycle1: False, Cycle2: False" ∧
  SpaStatus.circulation_pump status = false ∧
  last_status (snd (get_status 7 (Sample.controller Sample.ready)))
    = Some status.
Proof. by repeat split. Qed.

(** A pump handle without an [options] attribute stops [cycle_pump] at
    its log line; a missing [lights] attribute stops [cycle_light]. *)
Example command_attribute_errors :
  cycle_pump
    (Sample.controller
       (Sample.client (Has true) (Has [Some (Sample.device 1 Absent)]) Absent))
    0 = ([], Raise (AttributeError "options")) ∧
  cycle_light (Sample.controller Sample.loading)
    = ([], Raise (AttributeError "lights")).
Proof. by split. Qed.

(** A refused [set_state] is made all the same and surfaces as an error. *)
Example cycle_pump_device_error :
  let refusing :=
    {| SpaControl.state := 2; SpaControl.options := Has [];
       SpaControl.set_state_returns := λ _, false |} in
  cycle_pump
    (Sample.controller (Sample.client (Has true) (Has [Some refusing]) Absent))
    0 = ([CallSetState (Pump 0) 0], Raise DeviceError).
Proof. done. Qed.

(** * Further properties *)

(** ** Loading the configuration *)

Lemma named_dec (getenv : string → option string) (ip_var : string) :
  named getenv ip_var ∨
  (getenv ip_var = None ∨ getenv ip_var = Some "").
Proof.
  unfold named. destruct (getenv ip_var) as [[|a ip]|] eqn:H.
  - right. by right.
  - left. by eexists.
  - right. by left.
Qed.

Lemma append_from_env_unnamed (getenv : string → option string)
  (py_int : string → option Z) (configs : list SpaConfig.t) (spa_id : Z)
  (ip_var name_var default_name port_var : string) :
  getenv ip_var = None ∨ getenv ip_var = Some "" →
  Config.append_from_env getenv py_int configs spa_id ip_var name_var
    default_name port_var = Ok configs.
Proof. unfold Config.append_from_env. by intros [-> | ->]. Qed.

Lemma append_from_env_named (getenv : string → option string)
  (py_int : string → option Z) (configs : list SpaConfig.t) (spa_id : Z)
  (ip_var name_var default_name port_var : string) :
  named getenv ip_var →
  match py_int (Config.getenv_default getenv port_var "4257") with
  | Some port =>
      ∃ config,
        Config.append_from_env getenv py_int configs spa_id ip_var name_var
          default_name port_var = Ok (configs ++ [config])%list ∧
        SpaConfig.spa_id config = spa_id ∧
        SpaConfig.enabled config = true ∧
        SpaConfig.port config = port ∧
        getenv ip_var = Some (SpaConfig.ip_address config) ∧
        SpaConfig.name config
          = Config.getenv_default getenv name_var default_name
  | None =>
      Config.append_from_env getenv py_int configs spa_id ip_var name_var
        default_name port_var = Raise ValueError
  end.
Proof.
  intros (ip & Hip & Htruthy).
  unfold Config.append_from_env, Config.config_from_env.
  rewrite Hip, Htruthy.
  destruct (py_int _) as [port|]; [| done].
  eexists. by repeat split.
Qed.

(** What [load_spa_configs] can return, by which spas are named. *)
Lemma load_spa_configs_cases (getenv : string → option string)
  (py_int : string → option Z) :
  let port1 := py_int (Config.getenv_default getenv "SPA1_PORT" "4257") in
  let port2 := py_int (Config.getenv_default getenv "SPA2_PORT" "4257") in
  (¬ named getenv "SPA1_IP" ∧ ¬ named getenv "SPA2_IP" ∧
   Config.load_spa_configs getenv py_int = Ok Config.default_configs) ∨
  (named getenv "SPA1_IP" ∧ port1 = None ∧
   Config.load_spa_configs getenv py_int = Raise ValueError) ∨
  (named getenv "SPA2_IP" ∧ port2 = None ∧
   Config.load_spa_configs getenv py_int = Raise ValueError) ∨
  (named getenv "SPA1_IP" ∧ is_Some port1 ∧
   (named getenv "SPA2_IP" → is_Some port2) ∧
   ∃ configs,
     Config.load_spa_configs getenv py_int = Ok configs ∧
     Forall (λ config, SpaConfig.enabled config = true) configs ∧
     (map SpaConfig.spa_id configs = [1] ∧ ¬ named getenv "SPA2_IP" ∨
      map SpaConfig.spa_id configs = [1; 2] ∧ named getenv "SPA2_IP")) ∨
  (¬ named getenv "SPA1_IP" ∧ named getenv "SPA2_IP" ∧ is_Some port2 ∧
   ∃ configs,
     Config.load_spa_configs getenv py_int = Ok configs ∧
     Forall (λ config, SpaConfig.enabled config = true) configs ∧
     map SpaConfig.spa_id configs = [2]).
Proof.
  cbn zeta. unfold Config.load_spa_configs.
  assert (∀ v, getenv v = None ∨ getenv v = Some "" → ¬ named getenv v)
    as Hnot.
  { intros v [H | H] (ip & Hip & Ht); rewrite H in Hip; [done |].
    by injection Hip as <-. }
  destruct (named_dec getenv "SPA1_IP") as [H1 | H1];
    destruct (named_dec getenv "SPA2_IP") as [H2 | H2].
  - pose proof (append_from_env_named getenv py_int [] 1 "SPA1_IP"
                  "SPA1_NAME" "Main Spa" "SPA1_PORT" H1) as Ha.
    destruct (py_int (Config.getenv_default getenv "SPA1_PORT" "4257"))
      as [p1|] eqn:Hp1.
    + destruct Ha as (c1 & -> & Hid1 & Hen1 & _). cbn [rbind app].
      pose proof (append_from_env_named getenv py_int [c1] 2 "SPA2_IP"
                    "SPA2_NAME" "Secondary Spa" "SPA2_PORT" H2) as Hb.
      destruct (py_int (Config.getenv_default getenv "SPA2_PORT" "4257"))
        as [p2|] eqn:Hp2.
      * destruct Hb as (c2 & -> & Hid2 & Hen2 & _). cbn [rbind app].
        do 3 right. left. repeat split; try done. exists [c1; c2].
        split; [done |]. split; [by repeat constructor |].
        right. cbn [map]. by rewrite Hid1, Hid2.
      * rewrite Hb. cbn [rbind]. do 2 right. left. by repeat split.
    + rewrite Ha. cbn [rbind]. right. left. by repeat split.
  - pose proof (append_from_env_named getenv py_int [] 1 "SPA1_IP"
                  "SPA1_NAME" "Main Spa" "SPA1_PORT" H1) as Ha.
    destruct (py_int (Config.getenv_default getenv "SPA1_PORT" "4257"))
      as [p1|] eqn:Hp1.
    + destruct Ha as (c1 & -> & Hid1 & Hen1 & _). cbn [rbind app].
      rewrite (append_from_env_unnamed _ _ _ _ _ _ _ _ H2). cbn [rbind].
      do 3 right. left. repeat split; try done.
      { intros Hn. by destruct (Hnot _ H2). }
      exists [c1]. split; [done |]. split; [by repeat constructor |].
      left. cbn [map]. rewrite Hid1. split; [done |]. by apply Hnot.
    + rewrite Ha. cbn [rbind]. right. left. by repeat split.
  - rewrite (append_from_env_unnamed _ _ _ _ _ _ _ _ H1). cbn [rbind].
    pose proof (append_from_env_named getenv py_int [] 2 "SPA2_IP"
                  "SPA2_NAME" "Secondary Spa" "SPA2_PORT" H2) as Hb.
    destruct (py_int (Config.getenv_default getenv "SPA2_PORT" "4257"))
      as [p2|] eqn:Hp2.
    + destruct Hb as (c2 & -> & Hid2 & Hen2 & _). cbn [rbind app].
      do 4 right. repeat split; try done; [by apply Hnot |].
      exists [c2]. split; [done |]. split; [by repeat constructor |].
      cbn [map]. by rewrite Hid2.
    + rewrite Hb. cbn [rbind]. do 2 right. left. by repeat split.
  - rewrite (append_from_env_unnamed _ _ _ _ _ _ _ _ H1). cbn [rbind].
    rewrite (append_from_env_unnamed _ _ _ _ _ _ _ _ H2). cbn [rbind].
    left. repeat split; by try apply Hnot.
Qed.

Lemma load_spa_configs_shape (getenv : string → option string)
  (py_int : string → option Z) (configs : list SpaConfig.t) :
  Config.load_spa_configs getenv py_int = Ok configs →
  Forall (λ config, SpaConfig.enabled config = true) configs ∧
  (map SpaConfig.spa_id configs = [1] ∨
   map SpaConfig.spa_id configs = [2] ∨
   map SpaConfig.spa_id configs = [1; 2]).
Proof.
  intros Hload.
  destruct (load_spa_configs_cases getenv py_int)
    as [(_ & _ & H) | [(_ & _ & H) | [(_ & _ & H) |
        [(_ & _ & _ & l & H & Hen & Hids) | (_ & _ & _ & l & H & Hen & Hids)]]]];
    rewrite H in Hload; try discriminate; injection Hload as <-.
  - split; [by repeat constructor | by right; right].
  - split; [done |]. destruct Hids as [[-> _] | [-> _]]; auto.
  - split; [done |]. auto.
Qed.

(** X1. Whatever the environment, a list returned by [load_spa_configs]
    is not empty, enables every config, and carries the spa ids [1],
    [2] or [1; 2]: ids are never repeated. *)
Theorem load_spa_configs_invariants (getenv : string → option string)
  (py_int : string → option Z) (configs : list SpaConfig.t) :
  Config.load_spa_configs getenv py_int = Ok configs →
  configs ≠ [] ∧
  Forall (λ config, SpaConfig.enabled config = true) configs ∧
  (map SpaConfig.spa_id configs = [1] ∨
   map SpaConfig.spa_id configs = [2] ∨
   map SpaConfig.spa_id configs = [1; 2]) ∧
  NoDup (map SpaConfig.spa_id configs).
Proof.
  intros Hload.
  destruct (load_spa_configs_shape _ _ _ Hload) as [Hen Hids].
  split; [| split; [done |]; split; [done |]].
  - intros ->. by destruct Hids as [H | [H | H]].
  - destruct Hids as [-> | [-> | ->]]; repeat constructor;
      rewrite ?elem_of_cons, ?elem_of_nil; intuition discriminate.
Qed.

(** X2. When neither [SPA1_IP] nor [SPA2_IP] is set, or set to the empty
    string, the two built-in configs are returned; no port variable is
    parsed, so a malformed [SPAn_PORT] cannot make the load fail. *)
Theorem load_spa_configs_defaults (getenv : string → option string)
  (py_int : string → option Z) :
  getenv "SPA1_IP" = None ∨ getenv "SPA1_IP" = Some "" →
  getenv "SPA2_IP" = None ∨ getenv "SPA2_IP" = Some "" →
  Config.load_spa_configs getenv py_int = Ok Config.default_configs ∧
  map (λ config, (SpaConfig.spa_id config, SpaConfig.ip_address config,
                  SpaConfig.port config, SpaConfig.enabled config))
      Config.default_configs
    = [(1, "172.16.10.140", 4257, true); (2, "172.16.10.163", 4257, true)].
Proof.
  intros H1 H2. split; [| done]. unfold Config.load_spa_configs.
  rewrite (append_from_env_unnamed _ _ _ _ _ _ _ _ H1). cbn [rbind].
  by rewrite (append_from_env_unnamed _ _ _ _ _ _ _ _ H2).
Qed.

(** X3. [load_spa_configs] raises exactly when a named spa has a port
    string that [int] rejects, and then it raises [ValueError]; a spa
    that is not named never has its port parsed. *)
Theorem load_spa_configs_raises (getenv : string → option string)
  (py_int : string → option Z) (e : exn) :
  Config.load_spa_configs getenv py_int = Raise e ↔
  e = ValueError ∧
  ((named getenv "SPA1_IP" ∧
    py_int (Config.getenv_default getenv "SPA1_PORT" "4257") = None) ∨
   (named getenv "SPA2_IP" ∧
    py_int (Config.getenv_default getenv "SPA2_PORT" "4257") = None)).
Proof.
  destruct (load_spa_configs_cases getenv py_int)
    as [(N1 & N2 & H) | [(N1 & P1 & H) | [(N2 & P2 & H) |
        [(N1 & P1 & P2 & l & H & _) | (N1 & N2 & P2 & l & H & _)]]]];
    rewrite H; split.
  - done.
  - intros [_ [[? _] | [? _]]]; done.
  - intros [= <-]. split; [done |]. by left.
  - by intros [-> _].
  - intros [= <-]. split; [done |]. by right.
  - by intros [-> _].
  - done.
  - intros [_ [[_ Hp] | [Hn Hp]]].
    + rewrite Hp in P1. by destruct P1.
    + specialize (P2 Hn). rewrite Hp in P2. by destruct P2.
  - done.
  - intros [_ [[Hn _] | [_ Hp]]]; [done |].
    rewrite Hp in P2. by destruct P2.
Qed.


(** X4. Initialization from the environment: when the load succeeds on a
    fresh manager, a connect is attempted for every loaded config, in
    order; the registered ids are among 1 and 2; and every registered
    controller is connected under the id of its config. *)
Theorem initialize_from_env (getenv : string → option string)
  (py_int : string → option Z)
  (network : string → Z → SpaController.connect_outcome)
  (manager : SpaControllerManager.t) (attempts : list SpaConfig.t) :
  Config.initialize getenv py_int network SpaControllerManager.init
    = Ok (manager, attempts) →
  Config.load_spa_configs getenv py_int
    = Ok (SpaControllerManager.configs manager) ∧
  attempts = SpaControllerManager.configs manager ∧
  (∀ spa_id controller,
     SpaControllerManager.controllers manager !! spa_id = Some controller →
     (spa_id = 1 ∨ spa_id = 2) ∧
     SpaController.connected controller = true ∧
     is_Some (SpaController.client controller) ∧
     SpaConfig.spa_id (SpaController.config controller) = spa_id).
Proof.
  unfold Config.initialize.
  destruct (Config.load_spa_configs getenv py_int) as [loaded|e] eqn:Hload;
    [| done].
  cbn [rbind]. intros [= <- <-].
  destruct (load_spa_configs_shape _ _ _ Hload) as (Hen & Hids).
  unfold SpaControllerManager.initialize.
  cbn [fst snd SpaControllerManager.configs SpaControllerManager.controllers
       SpaControllerManager.init].
  destruct (initialize_fold network loaded ∅ []) as (Hdom & Hprov & Hatt).
  cbn zeta in Hdom, Hprov, Hatt.
  split; [done |]. split.
  - rewrite Hatt. cbn [app]. clear -Hen.
    induction Hen as [|config l Hc _ IH]; [done |].
    cbn [List.filter]. by rewrite Hc, IH.
  - intros k controller Hk.
    destruct (Hprov _ _ Hk) as [H | (Hconn & Hcl & Hid)];
      [by rewrite lookup_empty in H |].
    split; [| done].
    destruct (proj1 (Hdom k)) as [H | (cfg & Hin & <- & _)]; [by eexists | |].
    { rewrite lookup_empty in H. by destruct H. }
    assert (SpaConfig.spa_id cfg ∈ map SpaConfig.spa_id loaded) as Hmem.
    { apply list_elem_of_In, in_map, list_elem_of_In, Hin. }
    destruct Hids as [H | [H | H]]; rewrite H in Hmem;
      rewrite ?elem_of_cons, elem_of_nil in Hmem; intuition.
Qed.

(** ** Life of one controller *)

(** X5. [connect] never touches the config or the cached status.  When
    it returns, the controller is connected to the client the network
    gave; when it raises, the connected flag is cleared, also on a
    controller that was connected before. *)
Theorem connect_outcomes
  (network : string → Z → SpaController.connect_outcome)
  (self : SpaController.t) :
  let r := SpaController.connect network self in
  SpaController.config (snd r) = SpaController.config self ∧
  SpaController.last_status (snd r) = SpaController.last_status self ∧
  (fst r = Ok tt →
   SpaController.connected (snd r) = true ∧
   ∃ c, SpaController.client (snd r) = Some c ∧
        network (SpaConfig.ip_address (SpaController.config self))
                (SpaConfig.port (SpaController.config self))
          = SpaController.Connects c) ∧
  (∀ e, fst r = Raise e →
        SpaController.connected (snd r) = false ∧
        ∀ now, SpaController.get_status now (snd r)
               = (SpaStatus.default
                    (SpaConfig.spa_id (SpaController.config self)) false now,
                  snd r)).
Proof.
  cbn zeta. unfold SpaController.connect.
  destruct (network _ _) as [c|c|] eqn:Hnet; cbn [fst snd];
    (split; [done |]; split; [done |]; split).
  - intros _. split; [done |]. by exists c.
  - done.
  - done.
  - intros e _. split; [done |]. intros now.
    by rewrite get_status_not_connected by (by right).
  - done.
  - intros e _. split; [done |]. intros now.
    by rewrite get_status_not_connected by (by right).
Qed.

(** [get_status] changes at most the cached status. *)
Lemma get_status_keeps (now : Z) (self : SpaController.t) :
  let after := snd (SpaController.get_status now self) in
  SpaController.config after = SpaController.config self ∧
  SpaController.client after = SpaController.client self ∧
  SpaController.connected after = SpaController.connected self.
Proof.
  cbn zeta. unfold SpaController.get_status.
  destruct (SpaController.connected self) eqn:Hconn; [| done].
  destruct (SpaController.client self) as [c|] eqn:Hcl; [| done].
  destruct (SpaController.get_status_try now self c) as [[st self']|e] eqn:Htry;
    [| done].
  unfold SpaController.get_status_try in Htry.
  destruct (getattr_default "configuration_loaded" _ _) as [[|]|];
    cbn [rbind negb] in Htry; try discriminate.
  - repeat match type of Htry with
           | context [rbind ?x _] =>
               destruct x; cbn [rbind] in Htry; try discriminate
           end.
    injection Htry as <- <-. by cbn.
  - destruct (getattr_default "mac_address" _ _); [| discriminate].
    cbn [rbind] in Htry. injection Htry as <- <-. by cbn.
Qed.

Lemma controller_step_invariant (self self' : SpaController.t) :
  controller_step self self' →
  (SpaController.connected self = true →
   is_Some (SpaController.client self)) →
  SpaController.config self' = SpaController.config self ∧
  (SpaController.connected self' = true →
   is_Some (SpaController.client self')).
Proof.
  intros Hstep Hinv. destruct Hstep as [network self | self | now self].
  - unfold SpaController.connect. by destruct (network _ _).
  - unfold SpaController.disconnect.
    destruct (SpaController.client self) eqn:Hcl; cbn; [by split |].
    split; [done |]. intros Hconn. rewrite Hcl. by apply Hinv.
  - destruct (get_status_keeps now self) as (Hcfg & Hcl & Hconn).
    split; [done |]. by rewrite Hcl, Hconn.
Qed.

(** X6. Through any sequence of [connect], [disconnect] and
    [get_status] calls on a controller built from a config, the config
    stays the same and a set connected flag always comes with a client
    handle. *)
Theorem reachable_invariant (config : SpaConfig.t) (self : SpaController.t) :
  reachable config self →
  SpaController.config self = config ∧
  (SpaController.connected self = true →
   is_Some (SpaController.client self)).
Proof.
  induction 1 as [|self self' _ [IHcfg IHinv] Hstep]; [done |].
  destruct (controller_step_invariant _ _ Hstep IHinv) as [Hcfg Hinv].
  split; [congruence | done].
Qed.

(** X7. After [disconnect] the client handle is gone: [get_status]
    gives the disconnected status, each of the four commands raises
    NotConnected without calling the device, and a second [disconnect]
    changes nothing. *)
Theorem disconnect_cuts_off (self : SpaController.t) :
  let after := SpaController.disconnect self in
  let e := NotConnected (SpaConfig.spa_id (SpaController.config self)) in
  SpaController.client after = None ∧
  SpaController.config after = SpaController.config self ∧
  (is_Some (SpaController.client self) →
   SpaController.connected after = false) ∧
  SpaController.disconnect after = after ∧
  (∀ now, SpaController.get_status now after
          = (SpaStatus.default
               (SpaConfig.spa_id (SpaController.config self)) false now,
             after)) ∧
  (∀ temperature pump_id state,
     SpaController.set_temperature after temperature = ([], Raise e) ∧
     SpaController.cycle_pump after pump_id = ([], Raise e) ∧
     SpaController.cycle_light after = ([], Raise e) ∧
     SpaController.set_light after state = ([], Raise e)).
Proof.
  cbn zeta.
  assert (SpaController.client (SpaController.disconnect self) = None) as Hnone.
  { unfold SpaController.disconnect.
    by destruct (SpaController.client self) eqn:Hcl. }
  assert (SpaController.config (SpaController.disconnect self)
          = SpaController.config self) as Hcfg.
  { unfold SpaController.disconnect.
    by destruct (SpaController.client self). }
  split; [done |]. split; [done |]. split; [| split; [| split]].
  - unfold SpaController.disconnect. intros [c ->]. done.
  - unfold SpaController.disconnect at 1. by rewrite Hnone.
  - intros now. rewrite get_status_not_connected by (by left).
    by rewrite Hcfg.
  - intros temperature pump_id state. rewrite <- Hcfg.
    unfold SpaController.set_temperature, SpaController.cycle_pump,
      SpaController.cycle_light, SpaController.set_light.
    by rewrite !(not_connected_cases _ (or_intror Hnone)).
Qed.

(** X8. After [initialize], a temperature command for a registered spa
    always reaches the device: exactly one [set_temperature] call with
    the value as given, never NotFound or NotConnected. *)
Theorem initialized_set_temperature
  (network : string → Z → SpaController.connect_outcome)
  (loaded : list SpaConfig.t) (spa_id : Z) (temperature : float) :
  let manager :=
    fst (SpaControllerManager.initialize network loaded
           SpaControllerManager.init) in
  is_Some (SpaControllerManager.controllers manager !! spa_id) →
  ∃ returns : bool,
    SpaControllerManager.set_temperature manager spa_id temperature
      = ([CallSetTemperature temperature],
         if returns then Ok tt else Raise DeviceError).
Proof.
  cbn zeta. unfold SpaControllerManager.initialize.
  cbn [fst SpaControllerManager.controllers SpaControllerManager.init].
  destruct (initialize_fold network loaded ∅ []) as (_ & Hprov & _).
  cbn zeta in Hprov. intros [controller Hk].
  destruct (Hprov _ _ Hk) as [H | (Hconn & [c Hcl] & _)];
    [by rewrite lookup_empty in H |].
  unfold SpaControllerManager.set_temperature.
  cbn [SpaControllerManager.controllers]. rewrite Hk.
  unfold SpaController.set_temperature. rewrite Hconn, Hcl.
  by exists (SpaClient.set_temperature_returns c temperature).
Qed.

(** ** What the commands send *)

Lemma pump_next_state_range (s : Z) : 0 <= pump_next_state s <= 2.
Proof.
  unfold pump_next_state.
  destruct (s =? 0); [lia |]. destruct (s =? 1); [lia |].
  destruct (s =? 2); lia.
Qed.

Lemma cycle_pump_skips (self : SpaController.t) (c : SpaClient.t)
  (pumps : list (option SpaControl.t)) (pump_id : Z) :
  SpaController.connected self = true →
  SpaController.client self = Some c →
  SpaClient.pumps c = Has pumps →
  pumps = [] ∨ len pumps <= pump_id ∨
  (∃ pos, py_getitem pumps pump_id = Ok (pos, None)) →
  SpaController.cycle_pump self pump_id = ([], Ok tt).
Proof.
  intros Hconn Hcl Hpumps Hcase. unfold SpaController.cycle_pump.
  rewrite Hconn, Hcl, Hpumps. cbn [getattr lift bind].
  destruct Hcase as [-> | [Hge | [pos Hget]]].
  - done.
  - rewrite Z.gtb_ltb, (proj2 (Z.ltb_ge _ _)) by done.
    by rewrite andb_false_r.
  - destruct (py_getitem_Ok _ _ _ _ Hget) as (_ & Hlt & Hne & _).
    rewrite Hne, (proj2 (Z.gtb_gt _ _)) by lia. cbn [andb].
    by rewrite Hget.
Qed.

(** X9. [cycle_pump] returns normally without calling the device when
    the pump list is empty (for every index, negative ones included),
    when the index is at or beyond the end of the list, and when the
    slot at the index holds no device. *)
Theorem cycle_pump_no_device (self : SpaController.t) (c : SpaClient.t)
  (pumps : list (option SpaControl.t)) (pump_id : Z) :
  SpaController.connected self = true →
  SpaController.client self = Some c →
  SpaClient.pumps c = Has pumps →
  pumps = [] ∨ len pumps <= pump_id ∨
  (∃ pos, py_getitem pumps pump_id = Ok (pos, None)) →
  SpaController.cycle_pump self pump_id = ([], Ok tt).
Proof.
  apply cycle_pump_skips.
Qed.

Lemma py_getitem_Raise {A} (l : list A) (i : Z) (e : exn) :
  py_getitem l i = Raise e → e = IndexError.
Proof.
  unfold py_getitem. destruct (py_position _ _) as [pos|]; [| by intros [= <-]].
  destruct (l !! pos); [done | by intros [= <-]].
Qed.

(** X10. Whatever the controller and the index, [cycle_pump] makes at
    most one device call, a [set_state] on a pump of the list with a
    value from 0 to 2; it never addresses a light or the temperature;
    and an exception other than a refusal by the device means that
    nothing was sent. *)
Theorem cycle_pump_calls (self : SpaController.t) (pump_id : Z) :
  let r := SpaController.cycle_pump self pump_id in
  (fst r = [] ∨
   ∃ c pumps pos pump,
     SpaController.client self = Some c ∧
     SpaClient.pumps c = Has pumps ∧
     pumps !! pos = Some (Some pump) ∧
     fst r = [CallSetState (Pump pos)
                (SpaController.pump_next_state (SpaControl.state pump))] ∧
     0 <= SpaController.pump_next_state (SpaControl.state pump) <= 2) ∧
  (∀ e, snd r = Raise e → e ≠ DeviceError → fst r = []) ∧
  (snd r = Raise DeviceError → fst r ≠ []).
Proof.
  cbn zeta. unfold SpaController.cycle_pump.
  destruct (SpaController.connected self); [| by repeat split; auto].
  destruct (SpaController.client self) as [c|]; [| by repeat split; auto].
  destruct (SpaClient.pumps c) as [| |pumps] eqn:Hpumps;
    cbn [getattr lift bind fst snd]; try (by repeat split; auto).
  destruct (SpaController.nonempty pumps && (len pumps >? pump_id));
    [| by repeat split; auto].
  destruct (py_getitem pumps pump_id) as [[pos [pump|]]|e] eqn:Hget;
    cbn [lift bind fst snd]; try (by repeat split; auto).
  2: { apply py_getitem_Raise in Hget as ->. by repeat split; auto. }
  destruct (SpaControl.options pump) as [| |options];
    cbn [getattr lift bind fst snd]; try (by repeat split; auto).
  unfold await.
  destruct (SpaControl.set_state_returns pump _); cbn [fst snd app].
  - split; [| done]. right. exists c, pumps, pos, pump.
    repeat split; try done; try apply pump_next_state_range.
    by apply (py_getitem_Ok _ _ _ _ Hget).
  - split; [| split; [by intros e [= <-] | done]].
    right. exists c, pumps, pos, pump.
    repeat split; try done; try apply pump_next_state_range.
    by apply (py_getitem_Ok _ _ _ _ Hget).
Qed.

(** X11. The pump cycle has period three on the known states: from Off,
    Low or High, three successive next states lead back to the start;
    and from any state at all the next state is one of the three. *)
Theorem pump_cycle_period (s : Z) :
  0 <= SpaController.pump_next_state s <= 2 ∧
  (0 <= s <= 2 →
   SpaController.pump_next_state s ≠ s ∧
   SpaController.pump_next_state
     (SpaController.pump_next_state (SpaController.pump_next_state s)) = s).
Proof.
  split; [apply pump_next_state_range |]. intros Hs.
  assert (s = 0 ∨ s = 1 ∨ s = 2) as [-> | [-> | ->]] by lia; by split.
Qed.

Lemma light_next_iter (options : list PyObj) (s : Z) (n : nat) :
  options ≠ [] →
  0 <= s < len options →
  Nat.iter n (λ x, SpaController.light_next_state x (Some options)) s
    = (s + Z.of_nat n) mod len options.
Proof.
  intros Hne Hs. induction n as [|n IH].
  - change (s = (s + 0) mod len options).
    rewrite Z.add_0_r. by rewrite Z.mod_small.
  - rewrite Nat.iter_succ, IH. unfold SpaController.light_next_state.
    rewrite Zplus_mod_idemp_l. f_equal. lia.
Qed.

(** X12. With a non-empty options list of length [N], the next light
    state is always a valid index of the list, whatever the current
    state; from a valid state, [n] cycles lead to [(s + n) mod N], so
    that [N] cycles lead back to the start and every mode is reached on
    the way. *)
Theorem light_cycle_covers_options (options : list PyObj) (s : Z) :
  options ≠ [] →
  let next x := SpaController.light_next_state x (Some options) in
  0 <= next s < len options ∧
  (0 <= s < len options →
   (∀ n, Nat.iter n next s = (s + Z.of_nat n) mod len options) ∧
   Nat.iter (length options) next s = s ∧
   (∀ mode, 0 <= mode < len options →
            ∃ n, (n < length options)%nat ∧ Nat.iter n next s = mode)).
Proof.
  intros Hne next.
  assert (0 < len options) as Hpos.
  { destruct options; [done |]. unfold len. cbn [length]. lia. }
  split.
  - subst next. cbn beta. unfold SpaController.light_next_state.
    by apply Z.mod_pos_bound.
  - intros Hs. split; [| split].
    + intros n. by apply light_next_iter.
    + subst next. rewrite light_next_iter by done. unfold len.
      fold (len options). rewrite <- (Z.mul_1_l (len options)) at 1.
      rewrite Z.mod_add by lia. by apply Z.mod_small.
    + intros mode Hmode. exists (Z.to_nat ((mode - s) mod len options)).
      pose proof (Z.mod_pos_bound (mode - s) (len options) Hpos) as Hb.
      split; [unfold len in *; lia |].
      subst next. rewrite light_next_iter by done.
      rewrite Z2Nat.id by lia. rewrite Zplus_mod_idemp_r.
      replace (s + (mode - s)) with mode by lia. by apply Z.mod_small.
Qed.


(** X13. [set_light] on a connected spa: with a device in [lights[0]] it
    sends that device 1 or 0 as asked, whatever its current state and
    options; with an empty light list or an empty first slot it returns
    without a call; with no [lights] attribute it raises. *)
Theorem set_light_cases (self : SpaController.t) (c : SpaClient.t)
  (state : bool) :
  SpaController.connected self = true →
  SpaController.client self = Some c →
  let new_state := if state then 1 else 0 in
  (∀ light rest,
     SpaClient.lights c = Has (Some light :: rest) →
     SpaController.set_light self state
       = ([CallSetState (Light 0) new_state],
          if SpaControl.set_state_returns light new_state then Ok tt
          else Raise DeviceError)) ∧
  (SpaClient.lights c = Has [] ∨
   (∃ rest, SpaClient.lights c = Has (None :: rest)) →
   SpaController.set_light self state = ([], Ok tt)) ∧
  (SpaClient.lights c = Absent →
   SpaController.set_light self state = ([], Raise (AttributeError "lights"))).
Proof.
  intros Hconn Hcl new_state. unfold SpaController.set_light.
  rewrite Hconn, Hcl. split; [| split].
  - intros light rest ->. cbn [getattr lift bind SpaController.nonempty].
    replace (len (Some light :: rest) >? 0) with true
      by (symmetry; apply Z.gtb_gt; unfold len; cbn [length]; lia).
    cbn [andb]. rewrite py_getitem_first. by cbn.
  - intros [-> | [rest ->]]; [done |].
    cbn [getattr lift bind SpaController.nonempty].
    replace (len (None :: rest) >? 0) with true
      by (symmetry; apply Z.gtb_gt; unfold len; cbn [length]; lia).
    cbn [andb]. by rewrite py_getitem_first.
  - by intros ->.
Qed.

Lemma first_light_entry (lights : list (option SpaControl.t)) :
  SpaController.nonempty lights && (len lights >? 0) = true →
  ∃ entry rest, lights = entry :: rest ∧
                py_getitem lights 0 = Ok (0%nat, entry).
Proof.
  destruct lights as [|entry rest]; [done |]. intros _.
  exists entry, rest. by rewrite py_getitem_first.
Qed.

(** X14. Whatever the controller, [cycle_light] and [set_light] make at
    most one device call, and it is a [set_state] on the light at
    position 0 with a value that is not negative: no other light, no
    pump and no temperature is ever addressed. *)
Theorem light_commands_first_light_only (self : SpaController.t)
  (state : bool) :
  let only_first (trace : list call) :=
    trace = [] ∨ ∃ v, 0 <= v ∧ trace = [CallSetState (Light 0) v] in
  only_first (fst (SpaController.cycle_light self)) ∧
  only_first (fst (SpaController.set_light self state)).
Proof.
  cbn zeta. unfold SpaController.cycle_light, SpaController.set_light.
  destruct (SpaController.connected self); [| by split; left].
  destruct (SpaController.client self) as [c|]; [| by split; left].
  destruct (SpaClient.lights c) as [| |lights];
    cbn [getattr lift bind fst snd]; try (by split; left).
  destruct (SpaController.nonempty lights && (len lights >? 0)) eqn:Hguard;
    [| by split; left].
  destruct (first_light_entry _ Hguard) as (entry & rest & -> & ->).
  cbn [lift bind fst snd]. destruct entry as [light|]; [| by split; left].
  split.
  - destruct (hasattr "options" (SpaControl.options light)) as [has|];
      cbn [lift bind fst]; [| by left].
    destruct (probe_list "options" (SpaControl.options light))
      as [options|] eqn:Hprobe; cbn [lift bind fst]; [| by left].
    unfold await. right.
    exists (SpaController.light_next_state (SpaControl.state light) options).
    split.
    + unfold SpaController.light_next_state.
      destruct options as [options|].
      * assert (0 < len options).
        { unfold probe_list in Hprobe.
          destruct (SpaControl.options light) as [| |[|o l]];
            cbn in Hprobe; try discriminate.
          injection Hprobe as <-. unfold len. cbn [length]. lia. }
        by apply Z.mod_pos_bound.
      * destruct (SpaControl.state light =? 0); lia.
    + by destruct (SpaControl.set_state_returns light _).
  - unfold await. right. exists (if state then 1 else 0).
    split; [by destruct state |].
    by destruct (SpaControl.set_state_returns light _).
Qed.

(** ** What a status holds *)

Lemma parse_pumps_lookup (devices : list (option SpaControl.t)) (i : Z)
  (acc : gmap Z Z) (k : Z) :
  SpaController.parse_pumps i devices acc !! k =
    if (i <=? k) && (k <? i + len devices) then
      match devices !! Z.to_nat (k - i) with
      | Some (Some pump) => Some (SpaControl.state pump)
      | _ => acc !! k
      end
    else acc !! k.
Proof.
  revert i acc. induction devices as [|entry devices IH]; intros i acc.
  - cbn [SpaController.parse_pumps]. unfold len. cbn [length].
    destruct (i <=? k) eqn:H1; [| done].
    apply Z.leb_le in H1. by rewrite (proj2 (Z.ltb_ge _ _)) by (cbn; lia).
  - assert (len (entry :: devices) = 1 + len devices) as Hlen
      by (unfold len; cbn [length]; lia).
    assert (SpaController.parse_pumps i (entry :: devices) acc !! k =
            SpaController.parse_pumps (i + 1) devices
              (match entry with
               | Some pump => <[i := SpaControl.state pump]> acc
               | None => acc
               end) !! k) as -> by (by destruct entry).
    rewrite IH, Hlen. clear IH.
    destruct (Z.eq_dec k i) as [-> | Hne].
    + rewrite (proj2 (Z.leb_gt (i + 1) i)) by lia. cbn [andb].
      rewrite Z.leb_refl, (proj2 (Z.ltb_lt i (i + (1 + len devices)))),
        Z.sub_diag by (pose proof (len_nonneg devices); lia).
      cbn [andb Z.to_nat lookup]. destruct entry as [pump|]; cbn.
      * by rewrite lookup_insert_eq.
      * done.
    + destruct (i <=? k) eqn:Hik.
      * apply Z.leb_le in Hik.
        rewrite (proj2 (Z.leb_le (i + 1) k)) by lia.
        replace (k <? i + 1 + len devices)
          with (k <? i + (1 + len devices)) by (f_equal; lia).
        destruct (k <? i + (1 + len devices)); cbn [andb].
        -- replace (Z.to_nat (k - i)) with (S (Z.to_nat (k - (i + 1))))
             by lia.
           cbn [lookup list_lookup].
           change (list_lookup (Z.to_nat (k - (i + 1))) devices)
             with (devices !! Z.to_nat (k - (i + 1))).
           destruct (devices !! Z.to_nat (k - (i + 1))) as [[pump|]|];
             try done; destruct entry; by rewrite ?lookup_insert_ne.
        -- destruct entry; by rewrite ?lookup_insert_ne.
      * apply Z.leb_gt in Hik.
        rewrite (proj2 (Z.leb_gt (i + 1) k)) by lia. cbn [andb].
        destruct entry; by rewrite ?lookup_insert_ne.
Qed.

(** X15. In the status of a fully-ready fetch the pump map has, under
    each position of the client's pump list that holds a device, the raw
    state of that device, and no other key: empty slots, positions
    beyond the list and negative keys are absent, and a missing or empty
    pump list gives the empty map. *)
Theorem get_status_pumps (now : Z) (self : SpaController.t)
  (c : SpaClient.t) (r : SpaStatus.t * SpaController.t) :
  SpaClient.configuration_loaded c = Has true →
  SpaController.get_status_try now self c = Ok r →
  ∀ k,
    SpaStatus.pumps (fst r) !! k =
      match SpaClient.pumps c with
      | Has devices =>
          if 0 <=? k then
            match devices !! Z.to_nat k with
            | Some (Some pump) => Some (SpaControl.state pump)
            | _ => None
            end
          else None
      | _ => None
      end.
Proof.
  intros Hready Htry k. unfold SpaController.get_status_try in Htry.
  rewrite Hready in Htry. cbn [getattr_default rbind negb] in Htry.
  destruct (probe_list "pumps" (SpaClient.pumps c)) as [devices|] eqn:Hprobe;
    [| discriminate].
  cbn [rbind] in Htry.
  repeat match type of Htry with
         | context [rbind ?x _] =>
             destruct x; cbn [rbind] in Htry; try discriminate
         end.
  injection Htry as <-. cbn [fst SpaStatus.pumps].
  unfold probe_list in Hprobe.
  destruct (SpaClient.pumps c) as [| |[|entry l]]; cbn in Hprobe;
    try discriminate; injection Hprobe as <-; rewrite ?lookup_empty.
  - done.
  - by destruct (0 <=? k).
  - rewrite parse_pumps_lookup, lookup_empty, Z.add_0_l, Z.sub_0_r.
    destruct (0 <=? k) eqn:H0; cbn [andb]; [| done].
    destruct (k <? len (entry :: l)) eqn:Hk.
    + by destruct ((entry :: l) !! Z.to_nat k) as [[pump|]|].
    + apply Z.ltb_ge in Hk. apply Z.leb_le in H0.
      by rewrite (proj2 (lookup_ge_None (entry :: l) (Z.to_nat k)))
        by (unfold len in Hk; lia).
Qed.

Lemma getattr_default_returns {A} (name : string) (a : attr A) (default : A) :
  a ≠ Raising → ∃ v, getattr_default name a default = Ok v.
Proof. destruct a; [by eexists | done | by eexists]. Qed.

Lemma probe_list_returns {A} (name : string) (a : attr (list A)) :
  a ≠ Raising → ∃ v, probe_list name a = Ok v.
Proof. destruct a as [| |[|x l]]; [by eexists | done | by eexists ..]. Qed.

Lemma light_summary_returns (light : SpaControl.t) :
  SpaControl.options light ≠ Raising →
  ∃ p, SpaController.light_summary light = Ok p.
Proof.
  intros Hopts. unfold SpaController.light_summary.
  destruct (SpaControl.options light) as [| |[|o options]]; try done;
    cbn [hasattr probe_list getattr rbind];
    destruct (SpaControl.state light >? 0) eqn:Hpos; try by eexists.
  destruct (SpaControl.state light <? len (o :: options)) eqn:Hin;
    [| by eexists].
  apply Z.gtb_gt in Hpos. apply Z.ltb_lt in Hin.
  unfold py_getitem, py_position.
  rewrite (proj2 (Z.ltb_ge _ 0)), (proj2 (Z.ltb_lt _ _)) by (unfold len in Hin; lia).
  destruct ((o :: options) !! Z.to_nat (SpaControl.state light)) eqn:Hx;
    [by eexists |].
  apply lookup_ge_None in Hx. unfold len in Hin. lia.
Qed.

(** X16. Missing attributes never degrade a status: on a connected
    controller, if no attribute getter of the client raises and the
    options getter of the first light does not raise, [get_status]
    returns [connected = true], whichever attributes are absent. *)
Theorem get_status_tolerates_missing (now : Z) (self : SpaController.t)
  (c : SpaClient.t) :
  SpaController.connected self = true →
  SpaController.client self = Some c →
  SpaClient.configuration_loaded c ≠ Raising →
  SpaClient.mac_address c ≠ Raising →
  SpaClient.pumps c ≠ Raising →
  SpaClient.lights c ≠ Raising →
  SpaClient.temperature c ≠ Raising →
  SpaClient.target_temperature c ≠ Raising →
  SpaClient.heat_mode c ≠ Raising →
  SpaClient.circulation_pump c ≠ Raising →
  SpaClient.filter_cycle_1_running c ≠ Raising →
  SpaClient.filter_cycle_2_running c ≠ Raising →
  (∀ devices light,
     SpaClient.lights c = Has devices →
     SpaController.first_light devices = Some light →
     SpaControl.options light ≠ Raising) →
  SpaStatus.connected (fst (SpaController.get_status now self)) = true.
Proof.
  intros Hconn Hcl Hloaded Hmac Hpumps Hlights Htemp Htarget Hheat Hcirc
    Hf1 Hf2 Hopts.
  rewrite (get_status_connected _ _ _ Hconn Hcl).
  unfold SpaController.get_status_try.
  destruct (getattr_default_returns "configuration_loaded" _ false Hloaded)
    as [loaded ->].
  destruct (getattr_default_returns "mac_address" _ None Hmac) as [mac Hm].
  cbn [rbind]. destruct loaded; cbn [negb]; [| by rewrite Hm].
  destruct (probe_list_returns "pumps" _ Hpumps) as [pump_devices ->].
  cbn [rbind].
  assert (∃ p,
    match
      (light_devices <- probe_list "lights" (SpaClient.lights c) ;;
       match light_devices with
       | Some devices =>
           match SpaController.first_light devices with
           | Some light => SpaController.light_summary light
           | None => Ok (false, "OFF")
           end
       | None => Ok (false, "OFF")
       end)%py
    with Ok p' => p' = p | Raise _ => False end) as [p Hp].
  { destruct (SpaClient.lights c) as [| |[|entry devices]] eqn:Hl;
      try done; cbn [probe_list hasattr getattr rbind]; try by eexists.
    destruct (SpaController.first_light (entry :: devices)) as [light|] eqn:Hf;
      [| by eexists].
    destruct (light_summary_returns light (Hopts _ _ eq_refl Hf)) as [p ->].
    by exists p. }
  destruct (probe_list "lights" (SpaClient.lights c)) as [light_devices|];
    cbn [rbind] in Hp |- *; [| done].
  match goal with
  | |- context [rbind ?x _] => destruct x as [light|]; [| done]
  end.
  cbn [rbind].
  destruct (getattr_default_returns "temperature" _ None Htemp) as [? ->].
  destruct (getattr_default_returns "target_temperature" _ None Htarget)
    as [? ->].
  destruct (getattr_default_returns "heat_mode" _ None Hheat) as [? ->].
  cbn [rbind].
  destruct (SpaClient.circulation_pump c) as [| |circ]; [| done |];
    cbn [hasattr getattr rbind];
    destruct (getattr_default_returns "filter_cycle_1_running" _ false Hf1)
      as [? ->];
    destruct (getattr_default_returns "filter_cycle_2_running" _ false Hf2)
      as [? ->];
    by rewrite Hm.
Qed.

(** X17. The scalar fields of a fully-ready status: temperatures and MAC
    address are the client's values, absent when the attribute is
    missing; the heat mode is its [str()] when truthy and absent when
    falsy or missing; the circulation pump is on exactly when a handle
    is there with a state above 0; the filter mode spells out the two
    cycle flags, a missing flag counting as [False]; and this status is
    the one cached on the controller. *)
Theorem get_status_ready_fields (now : Z) (self : SpaController.t)
  (c : SpaClient.t) (r : SpaStatus.t * SpaController.t) :
  SpaClient.configuration_loaded c = Has true →
  SpaController.get_status_try now self c = Ok r →
  let status := fst r in
  let flag (a : attr bool) := match a with Has b => b | _ => false end in
  getattr_default "temperature" (SpaClient.temperature c) None
    = Ok (SpaStatus.current_temp status) ∧
  getattr_default "target_temperature" (SpaClient.target_temperature c) None
    = Ok (SpaStatus.target_temp status) ∧
  getattr_default "mac_address" (SpaClient.mac_address c) None
    = Ok (SpaStatus.mac_address status) ∧
  SpaStatus.heat_mode status =
    match SpaClient.heat_mode c with
    | Has (Some h) => if py_truthy h then Some (py_str h) else None
    | _ => None
    end ∧
  SpaStatus.circulation_pump status =
    match SpaClient.circulation_pump c with
    | Has (Some pump) => SpaControl.state pump >? 0
    | _ => false
    end ∧
  SpaStatus.filter_mode status =
    Some ("Cycle1: " +:+ str_bool (flag (SpaClient.filter_cycle_1_running c))
          +:+ ", Cycle2: "
          +:+ str_bool (flag (SpaClient.filter_cycle_2_running c))) ∧
  snd r = SpaController.set_last_status self status.
Proof.
  intros Hready Htry. unfold SpaController.get_status_try in Htry.
  rewrite Hready in Htry. cbn [getattr_default rbind negb] in Htry.
  destruct (probe_list "pumps" (SpaClient.pumps c)); [| discriminate].
  cbn [rbind] in Htry.
  destruct (probe_list "lights" (SpaClient.lights c)); [| discriminate].
  cbn [rbind] in Htry.
  match type of Htry with
  | context [rbind ?x _] => destruct x; [| discriminate]
  end.
  cbn [rbind] in Htry.
  destruct (SpaClient.temperature c); cbn [getattr_default rbind] in Htry;
    try discriminate;
    destruct (SpaClient.target_temperature c);
    cbn [getattr_default rbind] in Htry; try discriminate;
    destruct (SpaClient.heat_mode c) as [| |[h|]];
    cbn [getattr_default rbind] in Htry; try discriminate;
    destruct (SpaClient.circulation_pump c) as [| |[pump|]];
    cbn [hasattr getattr rbind] in Htry; try discriminate;
    destruct (SpaClient.filter_cycle_1_running c);
    cbn [getattr_default rbind] in Htry; try discriminate;
    destruct (SpaClient.filter_cycle_2_running c);
    cbn [getattr_default rbind] in Htry; try discriminate;
    destruct (SpaClient.mac_address c);
    cbn [getattr_default rbind] in Htry; try discriminate;
    injection Htry as <-; by cbn.
Qed.

(** X18. Every status returned by [get_status] carries the spa id of the
    controller's config and the time of the fetch.  The cached status
    changes only on a fully-ready fetch: a disconnected, degraded or
    not-ready status never replaces it. *)
Theorem get_status_identity_and_cache (now : Z) (self : SpaController.t) :
  let r := SpaController.get_status now self in
  SpaStatus.spa_id (fst r) = SpaConfig.spa_id (SpaController.config self) ∧
  SpaStatus.last_update (fst r) = now ∧
  (SpaController.last_status (snd r) = SpaController.last_status self ∨
   (SpaController.last_status (snd r) = Some (fst r) ∧
    SpaStatus.connected (fst r) = true ∧
    ∃ c, SpaController.client self = Some c ∧
         SpaClient.configuration_loaded c = Has true)).
Proof.
  cbn zeta. unfold SpaController.get_status.
  destruct (SpaController.connected self); [| by repeat split; auto].
  destruct (SpaController.client self) as [c|]; [| by repeat split; auto].
  destruct (SpaController.get_status_try now self c) as [[st self']|e] eqn:Htry;
    [| by repeat split; auto].
  unfold SpaController.get_status_try in Htry.
  destruct (SpaClient.configuration_loaded c) as [| |[|]] eqn:Hloaded;
    cbn [getattr_default rbind negb] in Htry; try discriminate.
  - destruct (getattr_default "mac_address" _ _); [| discriminate].
    cbn [rbind] in Htry. injection Htry as <- <-. by repeat split; auto.
  - repeat match type of Htry with
           | context [rbind ?x _] =>
               destruct x; cbn [rbind] in Htry; try discriminate
           end.
    injection Htry as <- <-. cbn. repeat split; try done.
    right. repeat split; try done. by exists c.
  - destruct (getattr_default "mac_address" _ _); [| discriminate].
    cbn [rbind] in Htry. injection Htry as <- <-. by repeat split; auto.
Qed.

(** ** The manager *)

Lemma get_all_status_controllers (clock : Z → Z)
  (manager : SpaControllerManager.t) (spa_id : Z) :
  SpaControllerManager.controllers
    (snd (SpaControllerManager.get_all_status clock manager)) !! spa_id =
    (λ controller, snd (SpaController.get_status (clock spa_id) controller))
      <$> (SpaControllerManager.controllers manager !! spa_id).
Proof.
  unfold SpaControllerManager.get_all_status.
  cbn [snd SpaControllerManager.controllers].
  rewrite lookup_fmap, map_lookup_imap.
  by destruct (SpaControllerManager.controllers manager !! spa_id).
Qed.

Lemma get_status_spa_id (now : Z) (self : SpaController.t) :
  SpaStatus.spa_id (fst (SpaController.get_status now self))
    = SpaConfig.spa_id (SpaController.config self).
Proof.
  unfold SpaController.get_status.
  destruct (SpaController.connected self); [| done].
  destruct (SpaController.client self) as [c|]; [| done].
  destruct (SpaController.get_status_try now self c) as [[st self']|e] eqn:Htry;
    [| done].
  unfold SpaController.get_status_try in Htry.
  destruct (getattr_default "configuration_loaded" _ _) as [[|]|];
    cbn [rbind negb] in Htry; try discriminate.
  - repeat match type of Htry with
           | context [rbind ?x _] =>
               destruct x; cbn [rbind] in Htry; try discriminate
           end.
    by injection Htry as <- <-.
  - destruct (getattr_default "mac_address" _ _); [| discriminate].
    cbn [rbind] in Htry. by injection Htry as <- <-.
Qed.

(** X19. [get_all_status] keeps the registration as it is: the same spa
    ids are registered afterwards, each controller with the same config,
    client handle and connected flag, and the config list is unchanged;
    the status under each id is the one [get_status] gives for that
    controller, carrying the spa id of its config. *)
Theorem get_all_status_frame (clock : Z → Z)
  (manager : SpaControllerManager.t) :
  let r := SpaControllerManager.get_all_status clock manager in
  SpaControllerManager.configs (snd r)
    = SpaControllerManager.configs manager ∧
  dom (SpaControllerManager.controllers (snd r))
    = dom (SpaControllerManager.controllers manager) ∧
  dom (fst r) = dom (SpaControllerManager.controllers manager) ∧
  (∀ spa_id controller,
     SpaControllerManager.controllers manager !! spa_id = Some controller →
     ∃ status after,
       fst r !! spa_id = Some status ∧
       SpaControllerManager.controllers (snd r) !! spa_id = Some after ∧
       SpaController.get_status (clock spa_id) controller = (status, after) ∧
       SpaStatus.spa_id status
         = SpaConfig.spa_id (SpaController.config controller) ∧
       SpaController.config after = SpaController.config controller ∧
       SpaController.client after = SpaController.client controller ∧
       SpaController.connected after = SpaController.connected controller).
Proof.
  cbn zeta. split; [done |]. split; [| split].
  - apply set_eq. intros k.
    rewrite !elem_of_dom, get_all_status_controllers. apply fmap_is_Some.
  - apply set_eq. intros k.
    rewrite !elem_of_dom, get_all_status_lookup. apply fmap_is_Some.
  - intros k controller Hk.
    exists (fst (SpaController.get_status (clock k) controller)),
           (snd (SpaController.get_status (clock k) controller)).
    rewrite get_all_status_lookup, get_all_status_controllers, Hk.
    destruct (get_status_keeps (clock k) controller) as (Hcfg & Hcl & Hconn).
    pose proof (get_status_spa_id (clock k) controller) as Hid.
    repeat split; try done. by destruct (SpaController.get_status _ _).
Qed.

(** X20. [get_spa_status] raises NotFound exactly for an id that is not
    registered; for a registered id it never raises, returns what
    [get_status] gives for that controller, and leaves every other
    controller and the set of registered ids untouched. *)
Theorem get_spa_status_cases (now : Z) (manager : SpaControllerManager.t)
  (spa_id : Z) :
  (SpaControllerManager.controllers manager !! spa_id = None →
   SpaControllerManager.get_spa_status now manager spa_id
     = Raise (NotFound spa_id)) ∧
  (∀ controller,
     SpaControllerManager.controllers manager !! spa_id = Some controller →
     ∃ after,
       SpaControllerManager.get_spa_status now manager spa_id
         = Ok (fst (SpaController.get_status now controller), after) ∧
       SpaControllerManager.controllers after !! spa_id
         = Some (snd (SpaController.get_status now controller)) ∧
       (∀ other, other ≠ spa_id →
          SpaControllerManager.controllers after !! other
            = SpaControllerManager.controllers manager !! other) ∧
       dom (SpaControllerManager.controllers after)
         = dom (SpaControllerManager.controllers manager)).
Proof.
  unfold SpaControllerManager.get_spa_status. split; [by intros -> |].
  intros controller Hk. rewrite Hk. eexists. split; [done |].
  cbn [SpaControllerManager.controllers]. split; [| split].
  - by rewrite lookup_insert_eq.
  - intros other Hne. by rewrite lookup_insert_ne.
  - apply set_eq. intros k.
    rewrite dom_insert_L, elem_of_union, elem_of_singleton.
    split; [| by right]. intros [-> | H]; [| done].
    by apply (elem_of_dom_2 _ _ _ Hk).
Qed.

(** X21. After [disconnect_all] no spa is registered: the aggregate
    status is empty, and a status request or any of the four commands
    for any id raises NotFound without a device call; the config list
    is kept. *)
Theorem disconnect_all_unregisters (manager : SpaControllerManager.t) :
  let after := SpaControllerManager.disconnect_all manager in
  SpaControllerManager.configs after
    = SpaControllerManager.configs manager ∧
  (∀ clock, fst (SpaControllerManager.get_all_status clock after) = ∅) ∧
  (∀ now spa_id temperature pump_id state,
     SpaControllerManager.get_spa_status now after spa_id
       = Raise (NotFound spa_id) ∧
     SpaControllerManager.set_temperature after spa_id temperature
       = ([], Raise (NotFound spa_id)) ∧
     SpaControllerManager.cycle_pump after spa_id pump_id
       = ([], Raise (NotFound spa_id)) ∧
     SpaControllerManager.cycle_light after spa_id
       = ([], Raise (NotFound spa_id)) ∧
     SpaControllerManager.set_light after spa_id state
       = ([], Raise (NotFound spa_id))).
Proof.
  cbn zeta. split; [done |]. split.
  - intros clock. apply map_eq. intros k.
    by rewrite get_all_status_lookup, !lookup_empty.
  - intros now k temperature pump_id state.
    unfold SpaControllerManager.get_spa_status,
      SpaControllerManager.set_temperature, SpaControllerManager.cycle_pump,
      SpaControllerManager.cycle_light, SpaControllerManager.set_light,
      SpaControllerManager.disconnect_all.
    cbn [SpaControllerManager.controllers]. by rewrite lookup_empty.
Qed.

(** ** The subscriber registry *)

Lemma remove_first_snoc (websocket : WebSocket) (active : list WebSocket) :
  websocket ∉ active →
  ConnectionManager.remove_first websocket (active ++ [websocket]) = active.
Proof.
  induction active as [|x active IH]; intros Hout.
  - cbn. by rewrite decide_True.
  - apply not_elem_of_cons in Hout as [Hne Hout]. cbn.
    rewrite decide_False by done. by rewrite IH.
Qed.

Lemma remove_first_subset (websocket x : WebSocket) (active : list WebSocket) :
  x ∈ ConnectionManager.remove_first websocket active → x ∈ active.
Proof.
  induction active as [|y active IH]; [done |]. cbn.
  destruct (decide (websocket = y)) as [-> | Hne].
  - intros H. apply elem_of_cons. by right.
  - rewrite !elem_of_cons. intros [-> | H]; [by left | right; by apply IH].
Qed.

Lemma remove_first_NoDup (websocket : WebSocket) (active : list WebSocket) :
  NoDup active →
  NoDup (ConnectionManager.remove_first websocket active) ∧
  websocket ∉ ConnectionManager.remove_first websocket active.
Proof.
  induction 1 as [|y active Hy Hnd IH]; [split; [constructor | apply not_elem_of_nil] |].
  cbn. destruct (decide (websocket = y)) as [-> | Hne]; [done |].
  destruct IH as [IH1 IH2]. split.
  - constructor; [| done]. by intros H%remove_first_subset.
  - apply not_elem_of_cons. by split.
Qed.

(** X22. Subscribing and unsubscribing undo each other: a channel that
    is not yet registered is appended at the end by [connect] and
    removed again by [disconnect], giving back the registry as it was;
    a channel whose [accept] raises is not registered; and
    [disconnect] of a channel that is not registered raises
    [ValueError]. *)
Theorem connect_disconnect_round_trip (websocket : WebSocket)
  (self : ConnectionManager.t) :
  ConnectionManager.connect false websocket self = Raise DeviceError ∧
  (websocket ∉ ConnectionManager.active_connections self →
   ConnectionManager.disconnect websocket self = Raise ValueError ∧
   ∃ joined,
     ConnectionManager.connect true websocket self = Ok joined ∧
     ConnectionManager.active_connections joined
       = (ConnectionManager.active_connections self ++ [websocket])%list ∧
     ConnectionManager.disconnect websocket joined = Ok self).
Proof.
  split; [done |]. intros Hout. split.
  - unfold ConnectionManager.disconnect. by rewrite bool_decide_eq_false_2.
  - eexists. split; [done |]. split; [done |].
    unfold ConnectionManager.disconnect.
    cbn [ConnectionManager.active_connections].
    rewrite bool_decide_eq_true_2 by (apply elem_of_app; right; apply elem_of_cons; by left).
    rewrite remove_first_snoc by done. by destruct self.
Qed.

Lemma filter_NoDup (keep : WebSocket → bool) (active : list WebSocket) :
  NoDup active → NoDup (List.filter keep active).
Proof.
  induction 1 as [|x active Hx Hnd IH]; [constructor |].
  cbn [List.filter]. destruct (keep x); [| done].
  constructor; [| done]. rewrite list_elem_of_In, filter_In.
  intros [H _]. by apply Hx, list_elem_of_In.
Qed.

(** X23. A registry without repeated channels stays so under [connect]
    of a channel that is not registered, under [disconnect] and under
    [broadcast]; and in such a registry [disconnect] really removes the
    channel. *)
Theorem registry_stays_duplicate_free (websocket : WebSocket)
  (send_text_returns : WebSocket → bool) (self : ConnectionManager.t) :
  NoDup (ConnectionManager.active_connections self) →
  (websocket ∉ ConnectionManager.active_connections self →
   ∀ joined, ConnectionManager.connect true websocket self = Ok joined →
             NoDup (ConnectionManager.active_connections joined)) ∧
  (∀ remaining, ConnectionManager.disconnect websocket self = Ok remaining →
                NoDup (ConnectionManager.active_connections remaining) ∧
                websocket ∉ ConnectionManager.active_connections remaining) ∧
  NoDup (ConnectionManager.active_connections
           (snd (ConnectionManager.broadcast send_text_returns self))).
Proof.
  intros Hnd. split; [| split].
  - intros Hout joined [= <-]. cbn [ConnectionManager.active_connections].
    apply NoDup_app. split; [done |]. split; [| apply NoDup_singleton].
    intros x Hx Hw. apply list_elem_of_singleton in Hw as ->. done.
  - unfold ConnectionManager.disconnect. intros remaining.
    destruct (bool_decide _); [| done]. intros [= <-].
    cbn [ConnectionManager.active_connections].
    by apply remove_first_NoDup.
  - rewrite broadcast_spec. cbn [snd ConnectionManager.active_connections].
    by apply filter_NoDup.
Qed.

(** X24. Once a broadcast has failed to deliver to a channel, that
    channel is no longer registered, so a later [disconnect] of it (as
    the websocket endpoint does when the peer goes away) raises
    [ValueError]. *)
Theorem disconnect_after_failed_delivery (websocket : WebSocket)
  (send_text_returns : WebSocket → bool) (self : ConnectionManager.t) :
  send_text_returns websocket = false →
  ConnectionManager.disconnect websocket
    (snd (ConnectionManager.broadcast send_text_returns self))
    = Raise ValueError.
Proof.
  intros Hfail. rewrite broadcast_spec. unfold ConnectionManager.disconnect.
  cbn [snd ConnectionManager.active_connections].
  rewrite bool_decide_eq_false_2; [done |].
  rewrite list_elem_of_In, filter_In. intros [_ H]. congruence.
Qed.

Lemma filter_filter_andb (f g : WebSocket → bool) (l : list WebSocket) :
  List.filter g (List.filter f l) = List.filter (λ x, f x && g x) l.
Proof.
  induction l as [|x l IH]; [done |]. cbn [List.filter].
  destruct (f x); cbn [List.filter andb]; [| done].
  by destruct (g x); rewrite IH.
Qed.

(** X25. Over any number of broadcast cycles with no subscriber joining
    or leaving, the registry ends up holding exactly the subscribers to
    which every delivery returned, in their original order. *)
Theorem after_broadcasts_keeps_reliable (cycles : list (WebSocket → bool))
  (self : ConnectionManager.t) :
  ConnectionManager.active_connections (after_broadcasts cycles self) =
    List.filter
      (λ connection,
         forallb (λ send_text_returns : WebSocket → bool,
                    send_text_returns connection) cycles)
      (ConnectionManager.active_connections self) ∧
  (∀ connection,
     connection ∈ ConnectionManager.active_connections
                    (after_broadcasts cycles self) ↔
     connection ∈ ConnectionManager.active_connections self ∧
     ∀ send_text_returns : WebSocket → bool,
       send_text_returns ∈ cycles → send_text_returns connection = true).
Proof.
  assert (ConnectionManager.active_connections (after_broadcasts cycles self) =
    List.filter
      (λ connection,
         forallb (λ send_text_returns : WebSocket → bool,
                    send_text_returns connection) cycles)
      (ConnectionManager.active_connections self)) as Heq.
  { unfold after_broadcasts. revert self.
    induction cycles as [|send cycles IH]; intros self.
    - cbn. induction (ConnectionManager.active_connections self) as [|x l IHl];
        [done |]. cbn. by rewrite <- IHl.
    - cbn [fold_left forallb]. rewrite IH, broadcast_spec.
      cbn [snd ConnectionManager.active_connections].
      by rewrite filter_filter_andb. }
  split; [done |]. intros connection.
  rewrite Heq, list_elem_of_In, filter_In, <- list_elem_of_In, forallb_forall.
  split; intros [Hin Hall]; (split; [done |]); intros send Hs; apply Hall;
    by apply list_elem_of_In.
Qed.

(** ** Two handlers *)

(** X26. The pump handler answers with the success body whenever the
    command returns, with the same device calls, and lets every
    exception through; so for a registered, connected spa an index at or
    beyond the end of the pump list is answered "success", "cycled"
    although no device was called, and an unregistered spa id gives
    NotFound. *)
Theorem api_cycle_pump_answers (spa_manager : SpaControllerManager.t)
  (spa_id pump_id : Z) :
  let body :=
    [("status", JString "success"); ("spa_id", JInt spa_id);
     ("pump_id", JInt pump_id); ("action", JString "cycled")] in
  let r := SpaControllerManager.cycle_pump spa_manager spa_id pump_id in
  api_cycle_pump spa_manager spa_id pump_id =
    (fst r, match snd r with Ok _ => Ok body | Raise e => Raise e end) ∧
  (SpaControllerManager.controllers spa_manager !! spa_id = None →
   api_cycle_pump spa_manager spa_id pump_id = ([], Raise (NotFound spa_id))) ∧
  (∀ controller c pumps,
     SpaControllerManager.controllers spa_manager !! spa_id = Some controller →
     SpaController.connected controller = true →
     SpaController.client controller = Some c →
     SpaClient.pumps c = Has pumps →
     len pumps <= pump_id →
     api_cycle_pump spa_manager spa_id pump_id = ([], Ok body)).
Proof.
  cbn zeta.
  assert (api_cycle_pump spa_manager spa_id pump_id =
    (fst (SpaControllerManager.cycle_pump spa_manager spa_id pump_id),
     match snd (SpaControllerManager.cycle_pump spa_manager spa_id pump_id)
     with
     | Ok _ => Ok [("status", JString "success"); ("spa_id", JInt spa_id);
                   ("pump_id", JInt pump_id); ("action", JString "cycled")]
     | Raise e => Raise e
     end)) as Heq.
  { unfold api_cycle_pump.
    destruct (SpaControllerManager.cycle_pump spa_manager spa_id pump_id)
      as [tr [[]|e]]; cbn [bind ret fst snd]; [| done].
    by rewrite app_nil_r. }
  split; [done |]. rewrite Heq. split.
  - intros Hnone. unfold SpaControllerManager.cycle_pump. by rewrite Hnone.
  - intros controller c pumps Hk Hconn Hcl Hpumps Hlen.
    unfold SpaControllerManager.cycle_pump. rewrite Hk.
    by rewrite (cycle_pump_skips controller c pumps pump_id Hconn Hcl Hpumps)
      by (right; by left).
Qed.

(** X27. The light handler likewise: the success body exactly when the
    command returns, the same device calls, and every exception let
    through; with an empty light list it answers "success", "cycled"
    without a device call. *)
Theorem api_cycle_light_answers (spa_manager : SpaControllerManager.t)
  (spa_id : Z) :
  let body :=
    [("status", JString "success"); ("spa_id", JInt spa_id);
     ("action", JString "cycled")] in
  let r := SpaControllerManager.cycle_light spa_manager spa_id in
  api_cycle_light spa_manager spa_id =
    (fst r, match snd r with Ok _ => Ok body | Raise e => Raise e end) ∧
  (∀ controller c,
     SpaControllerManager.controllers spa_manager !! spa_id = Some controller →
     SpaController.connected controller = true →
     SpaController.client controller = Some c →
     SpaClient.lights c = Has [] →
     api_cycle_light spa_manager spa_id = ([], Ok body)).
Proof.
  cbn zeta.
  assert (api_cycle_light spa_manager spa_id =
    (fst (SpaControllerManager.cycle_light spa_manager spa_id),
     match snd (SpaControllerManager.cycle_light spa_manager spa_id) with
     | Ok _ => Ok [("status", JString "success"); ("spa_id", JInt spa_id);
                   ("action", JString "cycled")]
     | Raise e => Raise e
     end)) as Heq.
  { unfold api_cycle_light.
    destruct (SpaControllerManager.cycle_light spa_manager spa_id)
      as [tr [[]|e]]; cbn [bind ret fst snd]; [| done].
    by rewrite app_nil_r. }
  split; [done |]. rewrite Heq.
  intros controller c Hk Hconn Hcl Hlights.
  unfold SpaControllerManager.cycle_light. rewrite Hk.
  unfold SpaController.cycle_light. by rewrite Hconn, Hcl, Hlights.
Qed.

(** * The further properties on the sample installations *)

Lemma load_spa_configs_invariants_witness :
  Config.load_spa_configs SampleEnv.getenv SampleEnv.py_int
    = Ok [SampleEnv.second_spa] ∧
  NoDup (map SpaConfig.spa_id [SampleEnv.second_spa]).
Proof.
  split; [reflexivity |].
  exact (proj2 (proj2 (proj2
           (load_spa_configs_invariants SampleEnv.getenv SampleEnv.py_int
              [SampleEnv.second_spa] eq_refl)))).
Defined.

Lemma load_spa_configs_defaults_witness :
  Config.load_spa_configs (λ _, None) (λ _, None) = Ok Config.default_configs.
Proof.
  exact (proj1 (load_spa_configs_defaults (λ _, None) (λ _, None)
                  (or_introl eq_refl) (or_introl eq_refl))).
Defined.

Lemma load_spa_configs_raises_witness :
  Config.load_spa_configs SampleEnv.getenv_bad_port SampleEnv.py_int
    = Raise ValueError.
Proof.
  apply (proj2 (load_spa_configs_raises SampleEnv.getenv_bad_port
                  SampleEnv.py_int ValueError)).
  split; [reflexivity |]. left. split; [| reflexivity].
  exists "10.0.0.6". split; reflexivity.
Defined.

Lemma initialize_from_env_witness :
  let r :=
    SpaControllerManager.initialize Sample.network [SampleEnv.second_spa]
      SpaControllerManager.init in
  Config.initialize SampleEnv.getenv SampleEnv.py_int Sample.network
    SpaControllerManager.init = Ok r ∧
  snd r = [SampleEnv.second_spa].
Proof.
  split; [reflexivity |].
  exact (proj1 (proj2
           (initialize_from_env SampleEnv.getenv SampleEnv.py_int
              Sample.network _ _ eq_refl))).
Defined.

Lemma connect_outcomes_witness :
  SpaController.connected
    (snd (SpaController.connect Sample.network
            (SpaController.init Sample.spa_a))) = true ∧
  SpaController.connected
    (snd (SpaController.connect Sample.network
            (SpaController.init Sample.spa_b))) = false.
Proof.
  split.
  - exact (proj1 (proj1 (proj2 (proj2
             (connect_outcomes Sample.network
                (SpaController.init Sample.spa_a)))) eq_refl)).
  - exact (proj1 (proj2 (proj2 (proj2
             (connect_outcomes Sample.network
                (SpaController.init Sample.spa_b))))
             ConnectError eq_refl)).
Defined.

Lemma reachable_invariant_witness :
  let connected :=
    snd (SpaController.connect Sample.network
           (SpaController.init Sample.spa_a)) in
  let fetched := snd (SpaController.get_status 7 connected) in
  reachable Sample.spa_a (SpaController.disconnect fetched) ∧
  SpaController.config (SpaController.disconnect fetched) = Sample.spa_a.
Proof.
  cbn zeta.
  assert (reachable Sample.spa_a
            (SpaController.disconnect
               (snd (SpaController.get_status 7
                       (snd (SpaController.connect Sample.network
                               (SpaController.init Sample.spa_a))))))) as H.
  { eapply reachable_step; [| apply step_disconnect].
    eapply reachable_step; [| apply step_get_status].
    eapply reachable_step; [| apply step_connect].
    apply reachable_init. }
  split; [exact H |]. exact (proj1 (reachable_invariant _ _ H)).
Defined.

Lemma disconnect_cuts_off_witness :
  SpaController.cycle_light
    (SpaController.disconnect (Sample.controller Sample.ready))
    = ([], Raise (NotConnected 1)).
Proof.
  exact (proj1 (proj2 (proj2
           (proj2 (proj2 (proj2 (proj2 (proj2
              (disconnect_cuts_off (Sample.controller Sample.ready))))))
              98.5%float 0 true)))).
Defined.

Lemma initialized_set_temperature_witness :
  ∃ returns : bool,
    SpaControllerManager.set_temperature
      (fst (SpaControllerManager.initialize Sample.network
              [Sample.spa_a; Sample.spa_b] SpaControllerManager.init))
      1 102%float
      = ([CallSetTemperature 102%float],
         if returns then Ok tt else Raise DeviceError).
Proof.
  apply (initialized_set_temperature Sample.network
           [Sample.spa_a; Sample.spa_b] 1 102%float).
  eexists. reflexivity.
Defined.

Lemma cycle_pump_no_device_witness :
  SpaController.cycle_pump (Sample.controller Sample.ready) 2 = ([], Ok tt).
Proof.
  apply (cycle_pump_no_device (Sample.controller Sample.ready) Sample.ready
           Sample.pumps 2 eq_refl eq_refl eq_refl).
  right. left. unfold len. cbn. lia.
Defined.

Lemma cycle_pump_calls_witness :
  fst (SpaController.cycle_pump (Sample.controller Sample.ready) (-3)) = [].
Proof.
  apply (proj1 (proj2 (cycle_pump_calls (Sample.controller Sample.ready) (-3)))
           IndexError eq_refl).
  discriminate.
Defined.

Lemma pump_cycle_period_witness :
  SpaController.pump_next_state
    (SpaController.pump_next_state (SpaController.pump_next_state 1)) = 1.
Proof.
  apply (proj2 (pump_cycle_period 1)). lia.
Defined.

Lemma light_cycle_covers_options_witness :
  Nat.iter 3 (λ x, SpaController.light_next_state x (Some Sample.off_low_high))
    0 = 0.
Proof.
  refine (proj1 (proj2 (proj2 (light_cycle_covers_options Sample.off_low_high
                                 0 _) _))).
  - discriminate.
  - unfold len. cbn. lia.
Defined.


Lemma set_light_cases_witness :
  SpaController.set_light (Sample.controller Sample.ready_high) false
    = ([CallSetState (Light 0) 0], Ok tt).
Proof.
  exact (proj1 (set_light_cases (Sample.controller Sample.ready_high)
                  Sample.ready_high false eq_refl eq_refl)
           Sample.light_high [] eq_refl).
Defined.

Lemma get_status_pumps_witness :
  let status := fst (SpaController.get_status 7 (Sample.controller Sample.ready)) in
  SpaStatus.pumps status !! 1 = Some 2 ∧
  SpaStatus.pumps status !! 2 = None.
Proof.
  split.
  - exact (get_status_pumps 7 (Sample.controller Sample.ready) Sample.ready
             (SpaController.get_status 7 (Sample.controller Sample.ready))
             eq_refl eq_refl 1).
  - exact (get_status_pumps 7 (Sample.controller Sample.ready) Sample.ready
             (SpaController.get_status 7 (Sample.controller Sample.ready))
             eq_refl eq_refl 2).
Defined.

Lemma get_status_tolerates_missing_witness :
  SpaStatus.connected
    (fst (SpaController.get_status 7
            (Sample.controller
               (Sample.client (Has true) Absent Absent)))) = true.
Proof.
  apply (get_status_tolerates_missing 7
           (Sample.controller (Sample.client (Has true) Absent Absent))
           (Sample.client (Has true) Absent Absent) eq_refl eq_refl);
    cbn; discriminate.
Defined.

Lemma get_status_ready_fields_witness :
  let status := fst (SpaController.get_status 7 (Sample.controller Sample.ready)) in
  SpaStatus.heat_mode status = Some "READY" ∧
  SpaStatus.circulation_pump status = false ∧
  SpaStatus.filter_mode status = Some "Cycle1: False, Cycle2: False".
Proof.
  pose proof (get_status_ready_fields 7 (Sample.controller Sample.ready)
                Sample.ready
                (SpaController.get_status 7 (Sample.controller Sample.ready))
                eq_refl eq_refl) as (_ & _ & _ & Hheat & Hcirc & Hfilter & _).
  split; [exact Hheat |]. split; [exact Hcirc | exact Hfilter].
Defined.

Lemma get_all_status_frame_witness :
  ∃ status after,
    fst (SpaControllerManager.get_all_status (λ _, 7) SampleEnv.live_manager)
      !! 1 = Some status ∧
    SpaControllerManager.controllers
      (snd (SpaControllerManager.get_all_status (λ _, 7)
              SampleEnv.live_manager)) !! 1 = Some after ∧
    SpaStatus.spa_id status = 1 ∧
    SpaController.connected after = true.
Proof.
  destruct (proj2 (proj2 (proj2
              (get_all_status_frame (λ _, 7) SampleEnv.live_manager)))
              1 (Sample.controller Sample.ready) eq_refl)
    as (status & after & Hs & Ha & _ & Hid & _ & _ & Hconn).
  exists status, after. split; [exact Hs |]. split; [exact Ha |].
  split; [exact Hid | exact Hconn].
Defined.

Lemma get_spa_status_cases_witness :
  SpaControllerManager.get_spa_status 7 SampleEnv.live_manager 9
    = Raise (NotFound 9) ∧
  ∃ after,
    SpaControllerManager.get_spa_status 7 SampleEnv.live_manager 1
      = Ok (fst (SpaController.get_status 7 (Sample.controller Sample.ready)),
            after).
Proof.
  split.
  - exact (proj1 (get_spa_status_cases 7 SampleEnv.live_manager 9) eq_refl).
  - destruct (proj2 (get_spa_status_cases 7 SampleEnv.live_manager 1)
                (Sample.controller Sample.ready) eq_refl)
      as (after & Heq & _).
    exists after. exact Heq.
Defined.

Lemma connect_disconnect_round_trip_witness :
  ConnectionManager.disconnect 4%nat Sample.subscribers = Raise ValueError ∧
  ∃ joined,
    ConnectionManager.connect true 4%nat Sample.subscribers = Ok joined ∧
    ConnectionManager.active_connections joined
      = [1%nat; 2%nat; 3%nat; 4%nat] ∧
    ConnectionManager.disconnect 4%nat joined = Ok Sample.subscribers.
Proof.
  apply (proj2 (connect_disconnect_round_trip 4%nat Sample.subscribers)).
  cbn. rewrite !not_elem_of_cons. repeat split; try discriminate.
  apply not_elem_of_nil.
Defined.

Lemma registry_stays_duplicate_free_witness :
  NoDup (ConnectionManager.active_connections
           (snd (ConnectionManager.broadcast Sample.second_fails
                   Sample.subscribers))).
Proof.
  apply (registry_stays_duplicate_free 4%nat Sample.second_fails
           Sample.subscribers).
  cbn. repeat constructor; rewrite ?not_elem_of_cons;
    repeat split; try discriminate; apply not_elem_of_nil.
Defined.

Lemma disconnect_after_failed_delivery_witness :
  ConnectionManager.disconnect 2%nat
    (snd (ConnectionManager.broadcast Sample.second_fails Sample.subscribers))
    = Raise ValueError.
Proof.
  exact (disconnect_after_failed_delivery 2%nat Sample.second_fails
           Sample.subscribers eq_refl).
Defined.

Lemma after_broadcasts_keeps_reliable_witness :
  ConnectionManager.active_connections
    (after_broadcasts [λ _, true; Sample.second_fails] Sample.subscribers)
    = [1%nat; 3%nat].
Proof.
  exact (proj1 (after_broadcasts_keeps_reliable
                  [λ _, true; Sample.second_fails] Sample.subscribers)).
Defined.

Lemma api_cycle_pump_answers_witness :
  api_cycle_pump SampleEnv.live_manager 1 7 =
    ([], Ok [("status", JString "success"); ("spa_id", JInt 1);
             ("pump_id", JInt 7); ("action", JString "cycled")]) ∧
  api_cycle_pump SampleEnv.live_manager 9 0 = ([], Raise (NotFound 9)).
Proof.
  split.
  - apply (proj2 (proj2 (api_cycle_pump_answers SampleEnv.live_manager 1 7))
             (Sample.controller Sample.ready) Sample.ready Sample.pumps
             eq_refl eq_refl eq_refl eq_refl).
    unfold len. cbn. lia.
  - exact (proj1 (proj2 (api_cycle_pump_answers SampleEnv.live_manager 9 0))
             eq_refl).
Defined.

Lemma api_cycle_light_answers_witness :
  api_cycle_light SampleEnv.dark_manager 1 =
    ([], Ok [("status", JString "success"); ("spa_id", JInt 1);
             ("action", JString "cycled")]).
Proof.
  exact (proj2 (api_cycle_light_answers SampleEnv.dark_manager 1)
           (Sample.controller Sample.broken) Sample.broken
           eq_refl eq_refl eq_refl eq_refl).
Defined.

(** ** Broadcast with other tasks at its awaits *)

Lemma fan_out_live_quiet (send_text_returns : WebSocket → bool)
  (schedule : list (list registry_event)) (index : nat)
  (active : list WebSocket) (acc : list WebSocket * list WebSocket) :
  Forall (λ events, events = []) schedule →
  fan_out_live send_text_returns schedule index active acc =
    (active,
     fold_left (ConnectionManager.send_step send_text_returns)
               (drop index active) acc).
Proof.
  intros Hquiet. revert index acc.
  induction Hquiet as [|events later -> _ IH]; intros index acc; [done |].
  cbn [fan_out_live fold_left].
  destruct (active !! index) as [connection|] eqn:Hat.
  - rewrite IH. by rewrite (drop_S _ _ _ Hat).
  - apply lookup_ge_None in Hat. by rewrite drop_ge.
Qed.

(** C7. The fan-out iterates the live registry, so a subscriber can be
    passed over: with subscribers 1, 2 and 3 registered and every send
    returning, if the endpoint of subscriber 1 unregisters it while the
    send to 2 is awaited, the list becomes 2, 3 and the loop, at index
    2, ends: deliveries are attempted to 1 and 2 only; subscriber 3
    gets none, though it was registered throughout and still is
    afterwards.  With no other task at the awaits all three are
    attempted. *)
Theorem broadcast_live_skips_subscriber :
  let r :=
    broadcast_live (λ _, true) [[]; [Leave 1%nat]] Sample.subscribers in
  ConnectionManager.active_connections Sample.subscribers
    = [1%nat; 2%nat; 3%nat] ∧
  fst r = [1%nat; 2%nat] ∧
  ConnectionManager.active_connections (snd r) = [2%nat; 3%nat] ∧
  (3%nat ∉ fst r) ∧
  (3%nat ∈ ConnectionManager.active_connections (snd r)) ∧
  fst (broadcast_live (λ _, true) [] Sample.subscribers)
    = [1%nat; 2%nat; 3%nat].
Proof.
  cbn zeta. repeat split; try reflexivity.
  - change (3%nat ∉ [1%nat; 2%nat]). rewrite !not_elem_of_cons.
    repeat split; try discriminate. apply not_elem_of_nil.
  - change (3%nat ∈ [2%nat; 3%nat]). rewrite !elem_of_cons. auto.
Qed.

(** X28. When no other task adds or removes a subscriber while a
    broadcast is suspended in its sends, the broadcast attempts a
    delivery to every subscriber of the registry, in order, and leaves
    in the registry exactly the subscribers whose delivery returned, in
    their order. *)
Theorem broadcast_live_uninterrupted
  (send_text_returns : WebSocket → bool)
  (schedule : list (list registry_event)) (self : ConnectionManager.t) :
  Forall (λ events, events = []) schedule →
  let r := broadcast_live send_text_returns schedule self in
  fst r = ConnectionManager.active_connections self ∧
  ConnectionManager.active_connections (snd r)
    = List.filter send_text_returns
        (ConnectionManager.active_connections self) ∧
  r = ConnectionManager.broadcast send_text_returns self.
Proof.
  intros Hquiet. cbn zeta.
  assert (broadcast_live send_text_returns schedule self
          = ConnectionManager.broadcast send_text_returns self) as ->.
  { unfold broadcast_live, ConnectionManager.broadcast.
    rewrite (fan_out_live_quiet _ _ _ _ _ Hquiet). by cbn [fst snd drop]. }
  rewrite broadcast_spec. by cbn [fst snd ConnectionManager.active_connections].
Qed.

Lemma broadcast_live_uninterrupted_witness :
  broadcast_live Sample.second_fails [[]; []; []] Sample.subscribers
    = ([1%nat; 2%nat; 3%nat],
       {| ConnectionManager.active_connections := [1%nat; 3%nat] |}).
Proof.
  exact (proj2 (proj2 (broadcast_live_uninterrupted Sample.second_fails
                         [[]; []; []] Sample.subscribers
                         ltac:(repeat constructor)))).
Defined.
